(** * Palefo API client ([api-service.js])

    A shallow embedding of the browser-side API client and the properties
    its specification states about it.

    The client is asynchronous JavaScript that talks to three pieces of
    ambient state: two module-level variables ([usingFallbackUrl] and the
    "loading-active" class on the document body), the browser's local
    storage, and the network.  The embedding threads a [state] record
    through every operation, records what the client does in a
    chronological [trace] of events, and reads what the outside world
    answers from a [world] record (the server's answers, whether the CORS
    relay is enabled, whether the page has a toast container).

    An [async] function runs synchronously up to its first [await]; where
    that matters (a promise returned without being awaited, in
    [getContributions]) the operation is split at the [await] into the
    part that sends the request and the part that runs once the fetch has
    settled.  Everywhere else a fetch is sent and awaited in one step.

    Left out: console output, the stack text of an error, and the timer
    and click handler that remove a toast.

    Layout: host-language data and helpers, the browser and the effect
    monad, the client's helpers and operations in source order, the
    vocabulary of the statements, then the lemmas and the concrete runs. *)

From Stdlib Require Import String Ascii List ZArith Lia Bool DecimalString.
Import ListNotations.
Local Open Scope string_scope.
Local Open Scope Z_scope.

(* ================================================================== *)
(** * Host-language data *)
(* ================================================================== *)

(** Values a parsed JSON body can hold, plus [undefined] (what reading a
    missing property gives).  Numbers are integers in this model: the
    numbers the client looks at are counts, identifiers and status codes.
    An object is the list of its own properties in insertion order. *)
#[local] Set Warnings "-register-all".
Inductive value : Type :=
| VUndefined
| VNull
| VBool (b : bool)
| VNum (n : Z)
| VStr (s : string)
| VArr (items : list value)
| VObj (props : list (string * value)).

(** A thrown [Error]: its constructor name and its [message]. *)
Record error : Type := mkError { err_name : string; message : string }.

Definition Error (msg : string) : error := mkError "Error" msg.
Definition TypeError (msg : string) : error := mkError "TypeError" msg.
Definition SyntaxError (msg : string) : error := mkError "SyntaxError" msg.

(** How an evaluation ends.  [OutOfFuel] belongs to the model only: it is
    what a recursion bounded by a depth counter answers when the counter
    is used up (see [getContributions_settle]). *)
Inductive outcome (A : Type) : Type :=
| Ok (a : A)
| Throw (e : error)
| OutOfFuel.
Arguments Ok {A} a.
Arguments Throw {A} e.
Arguments OutOfFuel {A}.

(** ** Strings *)

(** [s.includes(needle)] *)
Fixpoint includes (s needle : string) : bool :=
  prefix needle s ||
  match s with
  | EmptyString => false
  | String _ rest => includes rest needle
  end.

(** Decimal text of an integer, as [String(n)] and template literals
    print it for [|n| < 10^21]; from there on the host prints an exponent
    and the model keeps printing digits. *)
Definition show_Z (n : Z) : string := NilZero.string_of_int (Z.to_int n).

(** [xs.join(",")] for an array of strings. *)
Fixpoint join_comma (xs : list string) : string :=
  match xs with
  | [] => ""
  | [x] => x
  | x :: rest => x ++ "," ++ join_comma rest
  end.

Definition hex_digit (n : N) : ascii :=
  ascii_of_N (if (n <? 10)%N then 48 + n else 55 + n)%N.

(** "%XX" with upper-case hexadecimal digits. *)
Definition percent_byte (c : ascii) : string :=
  let n := N_of_ascii c in
  String "%" (String (hex_digit (n / 16)) (String (hex_digit (n mod 16)) "")).

Definition is_alnum (c : ascii) : bool :=
  let n := N_of_ascii c in
  ((48 <=? n) && (n <=? 57) || (65 <=? n) && (n <=? 90) ||
   (97 <=? n) && (n <=? 122))%N.

Definition char_in (c : ascii) (set : string) : bool :=
  existsb (Ascii.eqb c) (list_ascii_of_string set).

(** [encodeURIComponent]: a string is its sequence of UTF-8 bytes; every
    byte outside A-Z a-z 0-9 - _ . ! ~ * ' ( ) is percent-encoded. *)
Fixpoint encodeURIComponent (s : string) : string :=
  match s with
  | EmptyString => ""
  | String c rest =>
      (if is_alnum c || char_in c "-_.!~*'()" then String c "" else percent_byte c)
      ++ encodeURIComponent rest
  end.

(** The serializer behind [URLSearchParams.toString()]
    (application/x-www-form-urlencoded): a space becomes "+", every byte
    outside A-Z a-z 0-9 * - . _ is percent-encoded. *)
Fixpoint form_urlencode (s : string) : string :=
  match s with
  | EmptyString => ""
  | String c rest =>
      (if is_alnum c || char_in c "*-._" then String c ""
       else if Ascii.eqb c " "%char then "+" else percent_byte c)
      ++ form_urlencode rest
  end.

(** [name=value] pairs joined by "&". *)
Fixpoint searchParams_toString (ps : list (string * string)) : string :=
  match ps with
  | [] => ""
  | [(k, v)] => form_urlencode k ++ "=" ++ form_urlencode v
  | (k, v) :: rest =>
      form_urlencode k ++ "=" ++ form_urlencode v ++ "&" ++ searchParams_toString rest
  end.

(** White space of the host language ([WhiteSpace] and [LineTerminator]):
    U+0009..U+000D, U+0020, U+00A0, U+1680, U+2000..U+200A, U+2028, U+2029,
    U+202F, U+205F, U+3000 and U+FEFF.  A string holds the UTF-8 bytes of its
    text, so a white space character is one, two or three bytes long. *)
Definition is_space (c : ascii) : bool :=
  let n := N_of_ascii c in ((n =? 32) || (9 <=? n) && (n <=? 13))%N.

(** U+00A0 is C2 A0. *)
Definition is_space2 (c1 c2 : ascii) : bool :=
  ((N_of_ascii c1 =? 194) && (N_of_ascii c2 =? 160))%N.

(** U+1680 is E1 9A 80; U+2000..U+200A, U+2028, U+2029 and U+202F are
    E2 80 80..8A, E2 80 A8, E2 80 A9 and E2 80 AF; U+205F is E2 81 9F;
    U+3000 is E3 80 80; U+FEFF is EF BB BF. *)
Definition is_space3 (c1 c2 c3 : ascii) : bool :=
  let n1 := N_of_ascii c1 in
  let n2 := N_of_ascii c2 in
  let n3 := N_of_ascii c3 in
  ((n1 =? 225) && (n2 =? 154) && (n3 =? 128)
   || (n1 =? 226) && (n2 =? 128)
      && ((128 <=? n3) && (n3 <=? 138) || (n3 =? 168) || (n3 =? 169) || (n3 =? 175))
   || (n1 =? 226) && (n2 =? 129) && (n3 =? 159)
   || (n1 =? 227) && (n2 =? 128) && (n3 =? 128)
   || (n1 =? 239) && (n2 =? 187) && (n3 =? 191))%N.

(** Drops the white space characters a string starts with.  With
    [backwards] the bytes are read in reverse order, last byte of a
    character first. *)
Fixpoint skip_spaces (backwards : bool) (s : string) : string :=
  match s with
  | EmptyString => ""
  | String c1 rest1 =>
      if is_space c1 then skip_spaces backwards rest1
      else
        match rest1 with
        | EmptyString => s
        | String c2 rest2 =>
            if (if backwards then is_space2 c2 c1 else is_space2 c1 c2)
            then skip_spaces backwards rest2
            else
              match rest2 with
              | EmptyString => s
              | String c3 rest3 =>
                  if (if backwards then is_space3 c3 c2 c1 else is_space3 c1 c2 c3)
                  then skip_spaces backwards rest3
                  else s
              end
        end
  end.

Definition string_rev (s : string) : string :=
  string_of_list_ascii (rev (list_ascii_of_string s)).

(** [s.trimStart()]. *)
Definition trim_start (s : string) : string := skip_spaces false s.

(** [s.trimEnd()]. *)
Definition trim_end (s : string) : string :=
  string_rev (skip_spaces true (string_rev s)).

(** [s.trim()]. *)
Definition trim (s : string) : string := trim_end (trim_start s).

(** ** Values *)

(** [Boolean(v)]: what [if (v)], [!v], [&&] and [||] test. *)
Definition truthy (v : value) : bool :=
  match v with
  | VUndefined | VNull => false
  | VBool b => b
  | VNum n => negb (n =? 0)
  | VStr s => negb (s =? "")%string
  | VArr _ | VObj _ => true
  end.

(** An optional string argument ([None] is [undefined] or [null]). *)
Definition truthy_str (o : option string) : bool :=
  match o with
  | Some s => negb (s =? "")%string
  | None => false
  end.

(** A defaulted parameter: [None] is an omitted argument. *)
Definition dflt {A : Type} (d : A) (o : option A) : A :=
  match o with Some a => a | None => d end.

Fixpoint lookup (k : string) (props : list (string * value)) : value :=
  match props with
  | [] => VUndefined
  | (k', v) :: rest => if (k' =? k)%string then v else lookup k rest
  end.

Fixpoint has_key (k : string) (props : list (string * value)) : bool :=
  match props with
  | [] => false
  | (k', _) :: rest => (k' =? k)%string || has_key k rest
  end.

(** [obj.k = v] on an object that is known to have the property or not:
    an existing property keeps its place, a new one goes last. *)
Fixpoint assign (k : string) (v : value) (props : list (string * value))
  : list (string * value) :=
  match props with
  | [] => [(k, v)]
  | (k', v') :: rest =>
      if (k' =? k)%string then (k, v) :: rest else (k', v') :: assign k v rest
  end.

(** Reading a data property [v.k], where [k] is none of the names the
    built-in prototypes define: parsed JSON holds no other members.
    Reading from [null] or [undefined] throws. *)
Definition get (v : value) (k : string) : outcome value :=
  match v with
  | VUndefined =>
      Throw (TypeError ("Cannot read properties of undefined (reading '" ++ k ++ "')"))
  | VNull =>
      Throw (TypeError ("Cannot read properties of null (reading '" ++ k ++ "')"))
  | VObj props => Ok (lookup k props)
  | _ => Ok VUndefined
  end.

(** Same read where the receiver is known not to be [null]/[undefined]. *)
Definition field (v : value) (k : string) : value :=
  match v with
  | VObj props => lookup k props
  | _ => VUndefined
  end.

(** [String(v)].  An object converts through [Object.prototype.toString]
    unless parsed data shadows it with a member of its own, which is not
    callable: then the conversion throws (here [None]). *)
Fixpoint to_string (v : value) : option string :=
  match v with
  | VUndefined => Some "undefined"
  | VNull => Some "null"
  | VBool b => Some (if b then "true" else "false")
  | VNum n => Some (show_Z n)
  | VStr s => Some s
  | VArr items =>
      (fix join (xs : list value) : option string :=
         match xs with
         | [] => Some ""
         | x :: rest =>
             let sx := match x with
                       | VUndefined | VNull => Some ""
                       | _ => to_string x
                       end in
             match sx, rest with
             | None, _ => None
             | Some a, [] => Some a
             | Some a, _ => option_map (fun b => a ++ "," ++ b) (join rest)
             end
         end) items
  | VObj props => if has_key "toString" props then None else Some "[object Object]"
  end.

(** Numbers as arithmetic sees them: an integer or [NaN]. *)
Inductive number : Type := NaN | Int (n : Z).

Definition is_digit (c : ascii) : bool :=
  let n := N_of_ascii c in ((48 <=? n) && (n <=? 57))%N.

Fixpoint digits_value (acc : Z) (s : string) : option Z :=
  match s with
  | EmptyString => Some acc
  | String c rest =>
      if is_digit c
      then digits_value (10 * acc + Z.of_N (N_of_ascii c) - 48) rest
      else None
  end.

(** [Number(s)] within the integer model: white space around an optionally
    signed run of decimal digits; the empty string is 0; any other text is
    [NaN]. *)
Definition string_to_number (s : string) : number :=
  match trim s with
  | EmptyString => Int 0
  | String "-" (String c r) => match digits_value 0 (String c r) with
                                | Some n => Int (- n) | None => NaN end
  | String "+" (String c r) => match digits_value 0 (String c r) with
                                | Some n => Int n | None => NaN end
  | t => match digits_value 0 t with Some n => Int n | None => NaN end
  end.

(** [Number(v)]; [None] when the conversion throws. *)
Definition to_number (v : value) : option number :=
  match v with
  | VUndefined => Some NaN
  | VNull => Some (Int 0)
  | VBool b => Some (Int (if b then 1 else 0))
  | VNum n => Some (Int n)
  | VStr s => Some (string_to_number s)
  | VArr _ => option_map string_to_number (to_string v)
  | VObj props => if has_key "toString" props then None else Some NaN
  end.

(** [a >= k] and [k - a] on numbers; every comparison with [NaN] is false. *)
Definition number_ge (a : number) (k : Z) : bool :=
  match a with Int n => k <=? n | NaN => false end.

Definition number_rsub (k : Z) (a : number) : number :=
  match a with Int n => Int (k - n) | NaN => NaN end.

Definition show_number (a : number) : string :=
  match a with Int n => show_Z n | NaN => "NaN" end.

(* ================================================================== *)
(** * The browser around the client *)
(* ================================================================== *)

(** The [Blob] handed to [submitContribution]: its byte size and its
    declared media type ([None] when the object carries none). *)
Record Blob : Type := mkBlob { blob_size : Z; blob_type : option string }.

(** One [FormData] entry. *)
Inductive form_entry : Type :=
| FormText (name text : string)
| FormFile (name : string) (file : Blob) (filename : string).

Inductive request_body : Type :=
| NoBody
| FormData (entries : list form_entry)
| JSON_stringify (v : value).

(** The options object given to [fetch]; [None] is a member left out. *)
Record options : Type := mkOptions {
  method : option string;
  headers : list (string * string);
  body : request_body;
  mode : option string;
  credentials : option string
}.

Definition no_options : options := mkOptions None [] NoBody None None.

Record request : Type := mkRequest {
  via_corsProxy : bool;      (* [corsProxy.fetch] rather than [fetch] *)
  req_url : string;
  req_options : options
}.

(** A [Response].  [resp_json] is what [response.json()] gives: the parsed
    body, or the message of the error thrown for a body that is not JSON. *)
Record response : Type := mkResponse {
  status : Z;
  statusText : string;
  resp_text : string;
  resp_json : string + value
}.

(** [response.ok] *)
Definition ok (r : response) : bool := (200 <=? status r) && (status r <=? 299).

(** How the promise returned by [fetch] settles: with a response (of any
    status), or rejected at transport level. *)
Inductive fetch_result : Type :=
| Responded (r : response)
| Rejected (e : error).

Inductive event : Type :=
| EvShowLoading
| EvHideLoading
| EvRequest (r : request)     (* a request leaves *)
| EvSettled                   (* the pending fetch settles *)
| EvToast.                    (* the CORS notification is appended *)

(** What the client owns or touches between calls. *)
Record state : Type := mkState {
  usingFallbackUrl : bool;
  loading_active : bool;                      (* body.classList has "loading-active" *)
  localStorage : list (string * string);
  trace : list event                          (* oldest first *)
}.

(** What the client cannot decide.  [net] answers the request issued
    when the trace had the given length, so the same URL may be answered
    differently at different times. *)
Record world : Type := mkWorld {
  net : nat -> request -> fetch_result;
  corsProxy_isEnabled : bool;
  toast_container : bool
}.

(** A fetch that has been issued and not yet awaited. *)
Record pending : Type := mkPending { sent_at : nat; sent : request }.

(** ** The effect monad *)

Definition M (A : Type) : Type := world -> state -> outcome A * state.

Definition ret {A} (a : A) : M A := fun _ s => (Ok a, s).

Definition throw {A} (e : error) : M A := fun _ s => (Throw e, s).

Definition bind {A B} (m : M A) (f : A -> M B) : M B :=
  fun w s =>
    match m w s with
    | (Ok a, s') => f a w s'
    | (Throw e, s') => (Throw e, s')
    | (OutOfFuel, s') => (OutOfFuel, s')
    end.

Declare Scope js_scope.
Delimit Scope js_scope with js.
Notation "x <- m ;; k" := (bind m (fun x => k))
  (at level 100, m at next level, right associativity) : js_scope.
Notation "m ;; k" := (bind m (fun _ => k))
  (at level 100, right associativity) : js_scope.
Local Open Scope js_scope.

(** A pure evaluation that may throw. *)
Definition lift {A} (r : outcome A) : M A := fun _ s => (r, s).

(** [try { m } catch (error) { handler error }] *)
Definition try_catch {A} (m : M A) (handler : error -> M A) : M A :=
  fun w s =>
    match m w s with
    | (Throw e, s') => handler e w s'
    | r => r
    end.

(** [try { m } finally { cleanup }] *)
Definition finally {A} (m : M A) (cleanup : M unit) : M A :=
  fun w s =>
    match m w s with
    | (r, s') =>
        match cleanup w s' with
        | (Ok _, s'') => (r, s'')
        | (Throw e, s'') => (Throw e, s'')
        | (OutOfFuel, s'') => (OutOfFuel, s'')
        end
    end.

Definition emit (e : event) (s : state) : state :=
  mkState (usingFallbackUrl s) (loading_active s) (localStorage s) (trace s ++ [e]).

Definition set_loading (b : bool) (s : state) : state :=
  mkState (usingFallbackUrl s) b (localStorage s) (trace s).

Definition set_usingFallbackUrl (b : bool) (s : state) : state :=
  mkState b (loading_active s) (localStorage s) (trace s).

Definition set_localStorage (ls : list (string * string)) (s : state) : state :=
  mkState (usingFallbackUrl s) (loading_active s) ls (trace s).

(** [Array.prototype.map] with a callback that may throw: left to right,
    the first throw ends it. *)
Fixpoint mapM {A B} (f : A -> M B) (xs : list A) : M (list B) :=
  match xs with
  | [] => ret []
  | x :: rest => y <- f x ;; ys <- mapM f rest ;; ret (y :: ys)
  end.

(** [Array.prototype.filter] with a predicate that may throw. *)
Fixpoint filterM {A} (f : A -> outcome bool) (xs : list A) : outcome (list A) :=
  match xs with
  | [] => Ok []
  | x :: rest =>
      match f x with
      | Ok b =>
          match filterM f rest with
          | Ok ys => Ok (if b then x :: ys else ys)
          | Throw e => Throw e
          | OutOfFuel => OutOfFuel
          end
      | Throw e => Throw e
      | OutOfFuel => OutOfFuel
      end
  end.

(** ** Browser primitives *)

(** The synchronous part of [fetch(url, options)]: the request leaves. *)
Definition fetch_start (via_proxy : bool) (url : string) (o : options) : M pending :=
  fun _ s =>
    let r := mkRequest via_proxy url o in
    (Ok (mkPending (length (trace s)) r), emit (EvRequest r) s).

(** [await] on the promise [fetch] returned. *)
Definition fetch_await (p : pending) : M response :=
  fun w s =>
    match net w (sent_at p) (sent p) with
    | Responded r => (Ok r, emit EvSettled s)
    | Rejected e => (Throw e, emit EvSettled s)
    end.

(** [await fetch(url, options)] *)
Definition fetch (url : string) (o : options) : M response :=
  p <- fetch_start false url o ;; fetch_await p.

(** [await corsProxy.fetch(url, options)]: the relay is an external
    collaborator that answers with a [Response] like [fetch]. *)
Definition corsProxy_fetch (url : string) (o : options) : M response :=
  p <- fetch_start true url o ;; fetch_await p.

(** [await response.json()] *)
Definition response_json (r : response) : M value :=
  match resp_json r with
  | inr v => ret v
  | inl msg => throw (SyntaxError msg)
  end.

(** [await response.text()] *)
Definition response_text (r : response) : M string := ret (resp_text r).

Fixpoint storage_get (k : string) (ls : list (string * string)) : option string :=
  match ls with
  | [] => None
  | (k', v) :: rest => if (k' =? k)%string then Some v else storage_get k rest
  end.

Fixpoint storage_remove (k : string) (ls : list (string * string))
  : list (string * string) :=
  match ls with
  | [] => []
  | (k', v) :: rest =>
      if (k' =? k)%string then storage_remove k rest else (k', v) :: storage_remove k rest
  end.

Definition localStorage_setItem (k v : string) : M unit :=
  fun _ s => (Ok tt, set_localStorage ((k, v) :: storage_remove k (localStorage s)) s).

Definition localStorage_getItem (k : string) : M (option string) :=
  fun _ s => (Ok (storage_get k (localStorage s)), s).

Definition localStorage_removeItem (k : string) : M unit :=
  fun _ s => (Ok tt, set_localStorage (storage_remove k (localStorage s)) s).

(* ================================================================== *)
(** * The client: configuration and helpers *)
(* ================================================================== *)

(** [API_BASE_URLS] *)
Definition API_BASE_URLS_local : string := "https://localhost:7152/api".
Definition API_BASE_URLS_development : string := "https://localhost:7152/api".
Definition API_BASE_URLS_production : string :=
  "https://palefo-mock-api-92d4b6d1e5b9.herokuapp.com/api".

(** [ENVIRONMENT] is the constant "production"; [API_BASE_URL] is never
    assigned again. *)
Definition API_BASE_URL : string := API_BASE_URLS_production.

(** The module is loaded: primary base URL, no loading indicator. *)
Definition initial_state : state := mkState false false [] [].

Definition showLoading : M unit :=
  fun _ s => (Ok tt, emit EvShowLoading (set_loading true s)).

Definition hideLoading : M unit :=
  fun _ s => (Ok tt, emit EvHideLoading (set_loading false s)).

(** [usingFallbackUrl ? API_BASE_URLS.local : API_BASE_URL] *)
Definition base_url (fallback : bool) : string :=
  if fallback then API_BASE_URLS_local else API_BASE_URL.

Definition apiUrl (s : state) : string := base_url (usingFallbackUrl s).

Definition getApiUrl : M string := fun _ s => (Ok (apiUrl s), s).

Definition blob_domain : string := "blob.core.windows.net".

(** [url.includes(needle)] on a truthy value: text search on a string,
    membership on an array; nothing else has an [includes] to call. *)
Definition value_includes (url : value) (needle : string) : outcome bool :=
  match url with
  | VStr s => Ok (includes s needle)
  | VArr items =>
      Ok (existsb (fun x => match x with
                            | VStr t => (t =? needle)%string
                            | _ => false
                            end) items)
  | _ => Throw (TypeError "url.includes is not a function")
  end.

(** A value spliced into a template literal or handed to a function that
    wants a string. *)
Definition stringify (v : value) : M string :=
  match to_string v with
  | Some s => ret s
  | None => throw (TypeError "Cannot convert object to primitive value")
  end.

Definition getProxiedUrl (url : value) : M value :=
  if truthy url then
    hit <- lift (value_includes url blob_domain) ;;
    if hit then
      base <- getApiUrl ;;
      text <- stringify url ;;
      ret (VStr (base ++ "/api/proxy-audio?url=" ++ encodeURIComponent text))
    else ret url
  else ret url.

(** [{...(options.headers || {}), Accept: "application/json"}] *)
Fixpoint assign_header (k v : string) (hs : list (string * string))
  : list (string * string) :=
  match hs with
  | [] => [(k, v)]
  | (k', v') :: rest =>
      if (k' =? k)%string then (k, v) :: rest else (k', v') :: assign_header k v rest
  end.

Definition corsOptions (o : options) : options :=
  mkOptions (method o) (assign_header "Accept" "application/json" (headers o))
            (body o) (Some "cors") (Some "include").

Definition cors_marker : string := "has been blocked by CORS policy".

(** The toast shown for a CORS failure, when the page has a container. *)
Definition show_cors_toast : M unit :=
  fun w s => if toast_container w then (Ok tt, emit EvToast s) else (Ok tt, s).

(** [fetchWithCorsHandling] up to its [await fetch(...)]: the request
    leaves with the CORS settings applied. *)
Definition fetchWithCorsHandling_start (url : string) (o : options) : M pending :=
  fetch_start false url (corsOptions o).

(** [fetchWithCorsHandling] from the moment the fetch settles. *)
Definition fetchWithCorsHandling_settle (p : pending) : M value :=
  try_catch
    (response <- fetch_await p ;;
     if negb (ok response)
     then throw (Error ("API error: " ++ show_Z (status response)))
     else response_json response)
    (fun error =>
       (if includes (message error) cors_marker then show_cors_toast else ret tt) ;;
       throw error).

Definition fetchWithCorsHandling (url : string) (o : options) : M value :=
  p <- fetchWithCorsHandling_start url o ;; fetchWithCorsHandling_settle p.

(** Calling [recv.name()] on parsed JSON data, [recv] being neither [null]
    nor [undefined]: data has no callable member, so this throws. *)
Definition call_member (v : value) (recv name : string) : M value :=
  throw (TypeError (recv ++ "." ++ name ++ " is not a function")).

(** [arr.find(pred)]: the first element the predicate accepts. *)
Fixpoint findM (f : value -> outcome bool) (xs : list value) : outcome (option value) :=
  match xs with
  | [] => Ok None
  | x :: rest =>
      match f x with
      | Ok true => Ok (Some x)
      | Ok false => findM f rest
      | Throw e => Throw e
      | OutOfFuel => OutOfFuel
      end
  end.

(** The receiver of [recv.name(callback)] must be an array. *)
Definition as_array (v : value) (recv name : string) : outcome (list value) :=
  match v with
  | VArr items => Ok items
  | VUndefined =>
      Throw (TypeError ("Cannot read properties of undefined (reading '" ++ name ++ "')"))
  | VNull =>
      Throw (TypeError ("Cannot read properties of null (reading '" ++ name ++ "')"))
  | _ => Throw (TypeError (recv ++ "." ++ name ++ " is not a function"))
  end.

(* ================================================================== *)
(** * The client: operations of [ApiService] *)
(* ================================================================== *)

(** [catch (error) { console.error(...); throw error; }] *)
Definition rethrow {A} (error : error) : M A := throw error.

(** Optional filters of the phrase endpoints. *)
Record PhraseOptions : Type := mkPhraseOptions {
  category : option string;
  difficultyLevel : option Z;
  minWords : option Z;
  maxWords : option Z
}.

Definition empty_PhraseOptions : PhraseOptions := mkPhraseOptions None None None None.

(** What [checkPrizeEligibility] returns. *)
Record Eligibility : Type := mkEligibility {
  eligible : bool;
  eligibility_message : string;
  contributionCount : value;
  laptopEligible : bool;
  tshirtEligible : bool
}.

(** One probe of [testApiConnection]. *)
Record Probe : Type := mkProbe { probe_status : Z; probe_data : value }.

(** What [testApiConnection] returns: the four probes, or only the
    message of the error that ended it (the stack text is left out). *)
Inductive Report : Type :=
| ProbeReport (apiUrl : string) (statistics contributions sentences gemini : Probe)
| ErrorReport (error_message : string).

(** What [getContributionsForModeration] returns. *)
Record ModerationPage : Type := mkModerationPage {
  mp_items : list value;
  mp_page : Z;
  mp_pageSize : Z;
  mp_filter : string
}.

Module ApiService.

Definition getApiUrl : M string := getApiUrl.

Definition setApiUrl (url : option string) : M bool :=
  if truthy_str url && negb (trim (dflt "" url) =? "")%string then
    localStorage_setItem "palefo-api-url" (trim (dflt "" url)) ;;
    ret true
  else ret false.

Definition getRandomSentences (count : option Z) (excludeIds : option (list Z))
  : M value :=
  let count := dflt 1 count in
  showLoading ;;
  finally
    (try_catch
       (base <- getApiUrl ;;
        let url := base ++ "/sentences/random?count=" ++ show_Z count in
        let url :=
          match excludeIds with
          | Some (id :: ids) =>
              url ++ "&excludeIds=" ++ join_comma (map show_Z (id :: ids))
          | _ => url
          end in
        fetchWithCorsHandling url no_options)
       rethrow)
    hideLoading.

Definition getSentencesByCategory (category : string) (count : option Z) : M value :=
  let count := dflt 1 count in
  showLoading ;;
  finally
    (try_catch
       (base <- getApiUrl ;;
        response <- fetch (base ++ "/sentences/category/" ++ encodeURIComponent category
                             ++ "?count=" ++ show_Z count) no_options ;;
        if negb (ok response) then
          throw (Error ("Error fetching sentences by category: "
                          ++ show_Z (status response)))
        else response_json response)
       rethrow)
    hideLoading.

Definition getSentencesByCategorySimple (category : string) (count : option Z)
  : M value :=
  let count := dflt 1 count in
  showLoading ;;
  finally
    (try_catch
       (base <- getApiUrl ;;
        response <- fetch (base ++ "/sentences/category-simple/"
                             ++ encodeURIComponent category
                             ++ "?count=" ++ show_Z count) no_options ;;
        if negb (ok response) then
          throw (Error ("Error fetching sentences by category: "
                          ++ show_Z (status response)))
        else response_json response)
       rethrow)
    hideLoading.

Definition getSentencesByDifficulty (level : Z) (count : option Z) : M value :=
  let count := dflt 1 count in
  showLoading ;;
  finally
    (try_catch
       (base <- getApiUrl ;;
        response <- fetch (base ++ "/sentences/difficulty/" ++ show_Z level
                             ++ "?count=" ++ show_Z count) no_options ;;
        if negb (ok response) then
          throw (Error ("Error fetching sentences by difficulty: "
                          ++ show_Z (status response)))
        else response_json response)
       rethrow)
    hideLoading.

Definition getStatistics : M value :=
  showLoading ;;
  finally
    (try_catch
       (let options :=
          mkOptions (Some "GET") [("Accept", "application/json")] NoBody
                    (Some "cors") (Some "include") in
        base <- getApiUrl ;;
        response <- (fun w => (if corsProxy_isEnabled w
                               then corsProxy_fetch (base ++ "/statistics") options
                               else fetch (base ++ "/statistics") options) w) ;;
        if negb (ok response) then
          throw (Error ("Error fetching statistics: " ++ show_Z (status response)
                          ++ " " ++ statusText response))
        else response_json response)
       rethrow)
    hideLoading.

Definition getTopContributors (limit : option Z) : M value :=
  let limit := dflt 10 limit in
  showLoading ;;
  finally
    (try_catch
       (base <- getApiUrl ;;
        response <- fetch (base ++ "/contributors/top?limit=" ++ show_Z limit)
                          no_options ;;
        if negb (ok response) then
          errorText <- response_text response ;;
          throw (Error ("API error: " ++ show_Z (status response) ++ " "
                          ++ statusText response))
        else response_json response)
       rethrow)
    hideLoading.

(** The extension chosen from [audioBlob.type]. *)
Definition fileExtension (type : option string) : string :=
  let fileExtension := "wav" in
  if truthy_str type then
    let type := dflt "" type in
    if includes type "mpeg" || includes type "mp3" then "mp3"
    else if includes type "webm" then "webm"
    else fileExtension
  else fileExtension.

Definition formData (KreyolText : string) (audioBlob : Blob)
           (email gender region : string) : list form_entry :=
  [FormText "KreyòlText" KreyolText;
   FormFile "AudioFile" audioBlob ("recording." ++ fileExtension (blob_type audioBlob))]
  ++ (if negb (email =? "")%string then [FormText "Email" email] else [])
  ++ (if negb (gender =? "")%string then [FormText "Gender" gender] else [])
  ++ (if negb (region =? "")%string then [FormText "Region" region] else []).

Definition submitContribution (KreyolText : string) (audioBlob : option Blob)
           (email gender region : option string) : M value :=
  let email := dflt "" email in
  let gender := dflt "" gender in
  let region := dflt "" region in
  showLoading ;;
  finally
    (try_catch
       (match audioBlob with
        | None =>
            throw (Error "Invalid audio recording: The audio blob is empty or undefined.")
        | Some audioBlob =>
            if blob_size audioBlob =? 0 then
              throw (Error "Invalid audio recording: The audio blob is empty or undefined.")
            else
              base <- getApiUrl ;;
              response <- fetchWithCorsHandling (base ++ "/contributions")
                            (mkOptions (Some "POST") []
                               (FormData (formData KreyolText audioBlob email gender region))
                               None None) ;;
              (* [response] is what [fetchWithCorsHandling] returned: the
                 parsed body, not a [Response] *)
              response_ok <- lift (get response "ok") ;;
              if negb (truthy response_ok) then
                errorText <- call_member response "response" "text" ;;
                status_text <- stringify (field response "status") ;;
                detail <- stringify (if truthy errorText then errorText
                                     else field response "statusText") ;;
                throw (Error ("API error: " ++ status_text ++ " - " ++ detail))
              else call_member response "response" "json"
        end)
       rethrow)
    hideLoading.

(** The callback mapped over [data.items]. *)
Definition proxy_audio (contribution : value) : M value :=
  audioUrl <- lift (get contribution "audioUrl") ;;
  if truthy audioUrl then
    proxied <- getProxiedUrl audioUrl ;;
    ret (match contribution with
         | VObj props => VObj (assign "audioUrl" proxied props)
         | _ => contribution
         end)
  else ret contribution.

(** [if (data && data.items) { data.items = data.items.map(...) }] *)
Definition proxy_items (data : value) : M value :=
  if truthy data && truthy (field data "items") then
    items <- lift (as_array (field data "items") "data.items" "map") ;;
    items' <- mapM proxy_audio items ;;
    ret (match data with
         | VObj props => VObj (assign "items" (VArr items') props)
         | _ => data
         end)
  else ret data.

Definition contributions_url (base : string) (page pageSize : Z)
           (includeUnapproved : bool) : string :=
  base ++ "/contributions?"
       ++ searchParams_toString
            ([("page", show_Z page); ("pageSize", show_Z pageSize)]
             ++ (if includeUnapproved then [("includeUnapproved", "true")] else [])).

(** [getContributions] up to its first [await]: the indicator is shown
    and the request leaves. *)
Definition getContributions_start (page pageSize : option Z)
           (includeUnapproved : option bool) : M pending :=
  let page := dflt 1 page in
  let pageSize := dflt 20 pageSize in
  let includeUnapproved := dflt false includeUnapproved in
  showLoading ;;
  base <- getApiUrl ;;
  fetchWithCorsHandling_start
    (contributions_url base page pageSize includeUnapproved) no_options.

(** The [try] block of [getContributions] from the moment its fetch
    settles. *)
Definition getContributions_try (p : pending) : M value :=
  data <- fetchWithCorsHandling_settle p ;; proxy_items data.

(** [getContributions] from the moment its fetch settles.

    In the [catch] block the client sets [usingFallbackUrl] and executes
    [return this.getContributions(page, pageSize)]: the nested call runs
    up to its own first [await] and hands back a promise, which is
    returned without being awaited; so the [finally] block of the outer
    call runs next, and only then does the nested call go on.  [depth]
    bounds the nesting. *)
Fixpoint getContributions_settle (depth : nat) (page pageSize : Z) (p : pending)
  : M value :=
  fun w s =>
    match getContributions_try p w s with
    | (Ok data, s1) => (hideLoading ;; ret data) w s1
    | (Throw error, s1) =>
        if negb (usingFallbackUrl s1) && includes (message error) "API error" then
          match depth with
          | O => (OutOfFuel, s1)
          | S depth' =>
              (p' <- finally
                       (getContributions_start (Some page) (Some pageSize) None)
                       hideLoading ;;
               getContributions_settle depth' page pageSize p')
                w (set_usingFallbackUrl true s1)
          end
        else (hideLoading ;; throw error) w s1
    | (OutOfFuel, s1) => (OutOfFuel, s1)
    end.

Definition getContributions (page pageSize : option Z)
           (includeUnapproved : option bool) : M value :=
  p <- getContributions_start page pageSize includeUnapproved ;;
  getContributions_settle 1 (dflt 1 page) (dflt 20 pageSize) p.

Definition getContributionById (id : Z) : M value :=
  showLoading ;;
  finally
    (try_catch
       (base <- getApiUrl ;;
        fetchWithCorsHandling (base ++ "/contributions/" ++ show_Z id) no_options)
       rethrow)
    hideLoading.

(** [(c) => c.email === email], [email] being a string. *)
Definition email_is (email : string) (c : value) : outcome bool :=
  match get c "email" with
  | Ok (VStr e) => Ok (e =? email)%string
  | Ok _ => Ok false
  | Throw e => Throw e
  | OutOfFuel => OutOfFuel
  end.

(** [a >= k] on a value. *)
Definition value_ge (a : value) (k : Z) : M bool :=
  match to_number a with
  | Some n => ret (number_ge n k)
  | None => throw (TypeError "Cannot convert object to primitive value")
  end.

(** [k - a] on a value. *)
Definition value_rsub (k : Z) (a : value) : M number :=
  match to_number a with
  | Some n => ret (number_rsub k n)
  | None => throw (TypeError "Cannot convert object to primitive value")
  end.

Definition checkPrizeEligibility (email : option string) : M Eligibility :=
  try_catch
    (if negb (truthy_str email) then
       ret (mkEligibility false "Email required for prize eligibility"
                          (VNum 0) false false)
     else
       let email := dflt "" email in
       contributors <- getTopContributors (Some 50) ;;
       items <- lift (as_array contributors "contributors" "find") ;;
       userContribution <- lift (findM (email_is email) items) ;;
       match userContribution with
       | None =>
           ret (mkEligibility false "No contributions found for this email"
                              (VNum 0) false false)
       | Some userContribution =>
           let contributionCount :=
             if truthy (field userContribution "contributionCount")
             then field userContribution "contributionCount"
             else VNum 0 in
           laptopEligible <- value_ge contributionCount 10000 ;;
           tshirtEligible <- value_ge contributionCount 1000 ;;
           message <-
             (if laptopEligible then
                ret "Congratulations! You've qualified for a laptop!"
              else if tshirtEligible then
                ret "You've qualified for a t-shirt and surprise gift!"
              else
                missing <- value_rsub 1000 contributionCount ;;
                ret ("You need " ++ show_number missing
                       ++ " more valid contributions to qualify for a t-shirt")) ;;
           ret (mkEligibility tshirtEligible message contributionCount
                              laptopEligible tshirtEligible)
       end)
    rethrow.

Definition authenticateAdmin (username password : string) : M bool :=
  if (username =? "admin")%string && (password =? "palefo2023")%string then
    localStorage_setItem "adminAuthenticated" "true" ;;
    ret true
  else ret false.

Definition isAdminAuthenticated : M bool :=
  item <- localStorage_getItem "adminAuthenticated" ;;
  ret (match item with Some v => (v =? "true")%string | None => false end).

Definition logoutAdmin : M unit := localStorage_removeItem "adminAuthenticated".

(** [response.ok ? await response.json() : "Failed"] *)
Definition probe_payload (response : response) : M value :=
  if ok response then response_json response else ret (VStr "Failed").

Definition testApiConnection : M Report :=
  try_catch
    (currentUrl <- getApiUrl ;;
     statsResponse <- fetch (currentUrl ++ "/statistics") no_options ;;
     let statsStatus := status statsResponse in
     statsData <- probe_payload statsResponse ;;
     contribResponse <- fetch (currentUrl ++ "/contributions?page=1&pageSize=5")
                              no_options ;;
     let contribStatus := status contribResponse in
     contribData <- probe_payload contribResponse ;;
     sentencesResponse <- fetch (currentUrl ++ "/sentences/random?count=3")
                                no_options ;;
     let sentencesStatus := status sentencesResponse in
     sentencesData <- probe_payload sentencesResponse ;;
     gemini <- try_catch
                 (geminiResponse <- fetch (currentUrl ++ "/ai/gemini-phrase?difficultyLevel=2")
                                          no_options ;;
                  geminiData <- probe_payload geminiResponse ;;
                  ret (mkProbe (status geminiResponse) geminiData))
                 (fun error => ret (mkProbe 500 (VStr ("Error: " ++ message error)))) ;;
     ret (ProbeReport currentUrl
                      (mkProbe statsStatus statsData)
                      (mkProbe contribStatus contribData)
                      (mkProbe sentencesStatus sentencesData)
                      gemini))
    (fun error => ret (ErrorReport (message error))).

(** The three predicates handed to [contributions.filter]. *)
Definition is_approved (c : value) : outcome bool :=
  match get c "isApproved" with
  | Ok isApproved => Ok (truthy isApproved)
  | Throw e => Throw e
  | OutOfFuel => OutOfFuel
  end.

Definition is_rejected (c : value) : outcome bool :=
  match get c "isApproved" with
  | Ok isApproved =>
      if negb (truthy isApproved) then Ok (truthy (field c "rejectionReason"))
      else Ok false
  | Throw e => Throw e
  | OutOfFuel => OutOfFuel
  end.

Definition is_pending (c : value) : outcome bool :=
  match get c "isApproved" with
  | Ok isApproved =>
      if negb (truthy isApproved) then Ok (negb (truthy (field c "rejectionReason")))
      else Ok false
  | Throw e => Throw e
  | OutOfFuel => OutOfFuel
  end.

(** The [switch (filter)]: "pending" shares its branch with [default]. *)
Definition filter_predicate (filter : string) : value -> outcome bool :=
  if (filter =? "approved")%string then is_approved
  else if (filter =? "rejected")%string then is_rejected
  else is_pending.

Definition getContributionsForModeration (page pageSize : option Z)
           (filter : option string) : M ModerationPage :=
  let page := dflt 1 page in
  let pageSize := dflt 10 pageSize in
  let filter := dflt "pending" filter in
  showLoading ;;
  finally
    (try_catch
       (let queryParams := "page=" ++ show_Z page ++ "&pageSize=" ++ show_Z pageSize
                             ++ "&includeUnapproved=true" in
        base <- getApiUrl ;;
        contributions <- fetchWithCorsHandling (base ++ "/contributions?" ++ queryParams)
                                               no_options ;;
        items <- lift (as_array contributions "contributions" "filter") ;;
        filteredContributions <- lift (filterM (filter_predicate filter) items) ;;
        ret (mkModerationPage filteredContributions page pageSize filter))
       rethrow)
    hideLoading.

Definition moderateContribution (id : Z) (approved : bool)
           (rejectionReason : option string) : M value :=
  showLoading ;;
  finally
    (try_catch
       (if negb approved && negb (truthy_str rejectionReason) then
          throw (Error "Rejection reason is required when rejecting a contribution")
        else
          base <- getApiUrl ;;
          response <- fetch (base ++ "/contributions/" ++ show_Z id ++ "/approval")
                        (mkOptions (Some "PATCH")
                           [("Content-Type", "application/json")]
                           (JSON_stringify
                              (VObj [("approved", VBool approved);
                                     ("rejectionReason",
                                      match rejectionReason with
                                      | Some reason => VStr reason
                                      | None => VNull
                                      end)]))
                           None None) ;;
          if negb (ok response) then
            throw (Error ("API error: " ++ show_Z (status response)))
          else response_json response)
       rethrow)
    hideLoading.

(** The query string both phrase endpoints build. *)
Definition phrase_query (options : PhraseOptions) : string :=
  searchParams_toString
    ((if truthy_str (category options)
      then [("category", dflt "" (category options))] else [])
     ++ match difficultyLevel options with
        | Some n => [("difficultyLevel", show_Z n)] | None => [] end
     ++ match minWords options with
        | Some n => [("minWords", show_Z n)] | None => [] end
     ++ match maxWords options with
        | Some n => [("maxWords", show_Z n)] | None => [] end).

Definition getAIGeneratedPhrase (options : option PhraseOptions) : M value :=
  let options := dflt empty_PhraseOptions options in
  showLoading ;;
  finally
    (try_catch
       (base <- getApiUrl ;;
        let url := base ++ "/ai/random-phrase" in
        let url := if negb (phrase_query options =? "")%string
                   then url ++ "?" ++ phrase_query options else url in
        response <- fetch url no_options ;;
        if negb (ok response) then
          errorText <- response_text response ;;
          throw (Error ("Error fetching AI-generated phrase: "
                          ++ show_Z (status response)))
        else response_json response)
       rethrow)
    hideLoading.

Definition getGeminiPhrase (options : option PhraseOptions) : M value :=
  let options := dflt empty_PhraseOptions options in
  showLoading ;;
  finally
    (try_catch
       (base <- getApiUrl ;;
        let url := base ++ "/ai/gemini-phrase" in
        let url := if negb (phrase_query options =? "")%string
                   then url ++ "?" ++ phrase_query options else url in
        response <- fetch url no_options ;;
        if negb (ok response) then
          errorText <- response_text response ;;
          throw (Error ("Error fetching Gemini-generated phrase: "
                          ++ show_Z (status response)))
        else response_json response)
       rethrow)
    hideLoading.

End ApiService.

(** ** Every operation, as one type *)

Inductive operation : Type :=
| GetApiUrl
| SetApiUrl (url : option string)
| GetRandomSentences (count : option Z) (excludeIds : option (list Z))
| GetSentencesByCategory (category : string) (count : option Z)
| GetSentencesByCategorySimple (category : string) (count : option Z)
| GetSentencesByDifficulty (level : Z) (count : option Z)
| GetStatistics
| GetTopContributors (limit : option Z)
| SubmitContribution (text : string) (audioBlob : option Blob)
                     (email gender region : option string)
| GetContributions (page pageSize : option Z) (includeUnapproved : option bool)
| GetContributionById (id : Z)
| CheckPrizeEligibility (email : option string)
| AuthenticateAdmin (username password : string)
| IsAdminAuthenticated
| LogoutAdmin
| TestApiConnection
| GetContributionsForModeration (page pageSize : option Z) (filter : option string)
| ModerateContribution (id : Z) (approved : bool) (rejectionReason : option string)
| GetAIGeneratedPhrase (options : option PhraseOptions)
| GetGeminiPhrase (options : option PhraseOptions).

(** An operation run for what it does; its result is dropped. *)
Definition forget {A} (m : M A) : M unit := _ <- m ;; ret tt.

Definition run (o : operation) : M unit :=
  match o with
  | GetApiUrl => forget ApiService.getApiUrl
  | SetApiUrl url => forget (ApiService.setApiUrl url)
  | GetRandomSentences count excludeIds =>
      forget (ApiService.getRandomSentences count excludeIds)
  | GetSentencesByCategory category count =>
      forget (ApiService.getSentencesByCategory category count)
  | GetSentencesByCategorySimple category count =>
      forget (ApiService.getSentencesByCategorySimple category count)
  | GetSentencesByDifficulty level count =>
      forget (ApiService.getSentencesByDifficulty level count)
  | GetStatistics => forget ApiService.getStatistics
  | GetTopContributors limit => forget (ApiService.getTopContributors limit)
  | SubmitContribution text audioBlob email gender region =>
      forget (ApiService.submitContribution text audioBlob email gender region)
  | GetContributions page pageSize includeUnapproved =>
      forget (ApiService.getContributions page pageSize includeUnapproved)
  | GetContributionById id => forget (ApiService.getContributionById id)
  | CheckPrizeEligibility email => forget (ApiService.checkPrizeEligibility email)
  | AuthenticateAdmin username password =>
      forget (ApiService.authenticateAdmin username password)
  | IsAdminAuthenticated => forget ApiService.isAdminAuthenticated
  | LogoutAdmin => ApiService.logoutAdmin
  | TestApiConnection => forget ApiService.testApiConnection
  | GetContributionsForModeration page pageSize filter =>
      forget (ApiService.getContributionsForModeration page pageSize filter)
  | ModerateContribution id approved rejectionReason =>
      forget (ApiService.moderateContribution id approved rejectionReason)
  | GetAIGeneratedPhrase options => forget (ApiService.getAIGeneratedPhrase options)
  | GetGeminiPhrase options => forget (ApiService.getGeminiPhrase options)
  end.

(** ** Reading a trace *)

(** What was added to the trace between two states. *)
Definition since (s s' : state) : list event :=
  skipn (length (trace s)) (trace s').

Fixpoint requests (evs : list event) : list request :=
  match evs with
  | [] => []
  | EvRequest r :: rest => r :: requests rest
  | _ :: rest => requests rest
  end.

(** The loading discipline over a stretch of trace, given whether the
    indicator is on and how many fetches are pending when it starts: a
    request may leave only while the indicator is on, and the indicator
    may go off only when nothing is pending. *)
Fixpoint loading_covers (on : bool) (inflight : nat) (evs : list event) : bool :=
  match evs with
  | [] => true
  | EvShowLoading :: rest => loading_covers true inflight rest
  | EvHideLoading :: rest => Nat.eqb inflight 0 && loading_covers false inflight rest
  | EvRequest _ :: rest => on && loading_covers on (S inflight) rest
  | EvSettled :: rest => loading_covers on (Nat.pred inflight) rest
  | EvToast :: rest => loading_covers on inflight rest
  end.

Fixpoint touches_loading (evs : list event) : bool :=
  match evs with
  | [] => false
  | (EvShowLoading | EvHideLoading) :: _ => true
  | _ :: rest => touches_loading rest
  end.


(** Awaited calls to URLs under [base], one after the other, with the
    indicator left alone; a toast may follow a call. *)
Fixpoint calls (base : string) (evs : list event) : bool :=
  match evs with
  | [] => true
  | EvRequest r :: EvSettled :: rest => prefix base (req_url r) && calls base rest
  | EvToast :: rest => calls base rest
  | _ => false
  end.

(** The same, closed by the indicator going off. *)
Fixpoint calls_then_hide (base : string) (evs : list event) : bool :=
  match evs with
  | [EvHideLoading] => true
  | EvRequest r :: EvSettled :: rest => prefix base (req_url r) && calls_then_hide base rest
  | EvToast :: rest => calls_then_hide base rest
  | _ => false
  end.

(** What an operation wrapped in [showLoading() ... finally hideLoading()]
    leaves in the trace. *)
Definition guarded_calls (base : string) (evs : list event) : bool :=
  match evs with
  | EvShowLoading :: rest => calls_then_hide base rest
  | _ => false
  end.

Definition drop_toast (evs : list event) : list event :=
  match evs with
  | EvToast :: rest => rest
  | _ => evs
  end.

(** What [getContributions] leaves in the trace when it switches to the
    fallback: the first attempt against the primary base URL, then the
    nested call, whose request leaves before the outer call hides the
    indicator and settles after. *)
Definition fallback_retry (evs : list event) : bool :=
  match evs with
  | EvShowLoading :: EvRequest r1 :: EvSettled :: rest =>
      prefix API_BASE_URL (req_url r1) &&
      match drop_toast rest with
      | EvShowLoading :: EvRequest r2 :: EvHideLoading :: EvSettled :: rest' =>
          prefix API_BASE_URLS_local (req_url r2) &&
          match drop_toast rest' with
          | [EvHideLoading] => true
          | _ => false
          end
      | _ => false
      end
  | _ => false
  end.

(** Every request of a stretch of trace goes to a URL under [base]. *)
Definition under (base : string) (evs : list event) : Prop :=
  Forall (fun r => prefix base (req_url r) = true) (requests evs).

(** A computation that leaves the state alone and ends. *)
Definition reads_only {A} (m : M A) : Prop :=
  forall w s, snd (m w s) = s /\ fst (m w s) <> OutOfFuel.

(** The fallback is kept from [s] to [s']: the flag is on and the
    requests in between went to URLs under the fallback base URL. *)
Definition keeps_fallback (s s' : state) : Prop :=
  usingFallbackUrl s' = true /\ under API_BASE_URLS_local (since s s').


(** The loading indicator covers what happened from [s] to [s'], when
    nothing else was going on: no request was pending while it was off. *)
Definition bracketed (s s' : state) : Prop :=
  loading_covers false 0 (since s s') = true /\
  (requests (since s s') <> [] ->
   hd_error (since s s') = Some EvShowLoading /\
   last (since s s') EvShowLoading = EvHideLoading /\
   loading_active s' = false).

(** ** What each kind of operation does to the state *)

(** Nothing but, possibly, local storage. *)
Definition stays_offline (s s' : state) : Prop :=
  usingFallbackUrl s' = usingFallbackUrl s /\
  loading_active s' = loading_active s /\
  trace s' = trace s.

(** Calls under the current base URL inside a show/hide bracket. *)
Definition calls_under_loading (s s' : state) : Prop :=
  usingFallbackUrl s' = usingFallbackUrl s /\
  localStorage s' = localStorage s /\
  loading_active s' = false /\
  exists evs, trace s' = (trace s ++ evs)%list /\ guarded_calls (apiUrl s) evs = true.

(** Calls under the current base URL with the indicator left alone. *)
Definition calls_bare (s s' : state) : Prop :=
  usingFallbackUrl s' = usingFallbackUrl s /\
  localStorage s' = localStorage s /\
  loading_active s' = loading_active s /\
  exists evs, trace s' = (trace s ++ evs)%list /\
              calls (apiUrl s) evs = true /\ requests evs <> [].

(** The switch to the fallback base URL. *)
Definition switches_to_fallback (s s' : state) : Prop :=
  usingFallbackUrl s = false /\
  usingFallbackUrl s' = true /\
  localStorage s' = localStorage s /\
  loading_active s' = false /\
  exists evs, trace s' = (trace s ++ evs)%list /\ fallback_retry evs = true.

Definition effect (o : operation) (s s' : state) : Prop :=
  match o with
  | GetApiUrl | IsAdminAuthenticated => s' = s
  | SetApiUrl _ | AuthenticateAdmin _ _ | LogoutAdmin => stays_offline s s'
  | TestApiConnection => calls_bare s s'
  | CheckPrizeEligibility _ => s' = s \/ calls_under_loading s s'
  | GetContributions _ _ _ => calls_under_loading s s' \/ switches_to_fallback s s'
  | _ => calls_under_loading s s'
  end.

(* ================================================================== *)
(** * Vocabulary of the statements *)
(* ================================================================== *)

(** The error [moderateContribution] raises for a rejection without a
    reason. *)
Definition rejection_required : error :=
  Error "Rejection reason is required when rejecting a contribution".

(** The request [moderateContribution] sends. *)
Definition approval_request (base : string) (id : Z) (approved : bool)
           (rejectionReason : option string) : request :=
  mkRequest false (base ++ "/contributions/" ++ show_Z id ++ "/approval")
    (mkOptions (Some "PATCH") [("Content-Type", "application/json")]
       (JSON_stringify
          (VObj [("approved", VBool approved);
                 ("rejectionReason",
                  match rejectionReason with Some r => VStr r | None => VNull end)]))
       None None).

(** The request [checkPrizeEligibility] has [getTopContributors(50)] send. *)
Definition top50_request (base : string) : request :=
  mkRequest false (base ++ "/contributors/top?limit=50") no_options.

(** An element of a fetched array that can be read as a record. *)
Definition is_record (c : value) : Prop := c <> VNull /\ c <> VUndefined.

(** A leaderboard row that belongs to somebody else. *)
Definition other_contributor (address : string) (x : value) : Prop :=
  is_record x /\ field x "email" <> VStr address.

(** The request [getContributionsForModeration] sends. *)
Definition moderation_request (base : string) (page pageSize : Z) : request :=
  mkRequest false
    (base ++ "/contributions?page=" ++ show_Z page ++ "&pageSize=" ++ show_Z pageSize
          ++ "&includeUnapproved=true")
    (corsOptions no_options).

(** The three moderation buckets, in the words of the specification:
    approved when [isApproved] holds; otherwise rejected when a rejection
    reason is there, pending when none is.  A value "holds" or "is there"
    when it is truthy: an absent, [null] or empty reason is no reason. *)
Inductive bucket : Type := PendingBucket | ApprovedBucket | RejectedBucket.

Definition bucket_named (filter : string) : bucket :=
  if (filter =? "approved")%string then ApprovedBucket
  else if (filter =? "rejected")%string then RejectedBucket
  else PendingBucket.

Definition in_bucket (b : bucket) (c : value) : bool :=
  match b with
  | ApprovedBucket => truthy (field c "isApproved")
  | RejectedBucket => negb (truthy (field c "isApproved")) && truthy (field c "rejectionReason")
  | PendingBucket =>
      negb (truthy (field c "isApproved")) && negb (truthy (field c "rejectionReason"))
  end.

(** The request [getContributions] sends. *)
Definition contributions_request (base : string) (page pageSize : Z)
           (includeUnapproved : bool) : request :=
  mkRequest false (ApiService.contributions_url base page pageSize includeUnapproved)
            (corsOptions no_options).

(** The request [submitContribution] sends. *)
Definition upload_request (base text : string) (audioBlob : Blob)
           (email gender region : option string) : request :=
  mkRequest false (base ++ "/contributions")
    (corsOptions
       (mkOptions (Some "POST") []
          (FormData (ApiService.formData text audioBlob (dflt "" email) (dflt "" gender)
                                         (dflt "" region)))
          None None)).

(** The relay URL for a blob-storage audio URL. *)
Definition relay_url (base u : string) : string :=
  base ++ "/api/proxy-audio?url=" ++ encodeURIComponent u.

(** How [getContributions] may change one item of a page: every member
    other than [audioUrl] reads as before; a text [audioUrl] that names
    the blob storage domain is replaced by the relay URL; an item whose
    [audioUrl] is a text without the domain, or is missing or empty, is
    returned as it came. *)
Definition relayed (base : string) (c c' : value) : Prop :=
  (forall k, k <> "audioUrl" -> field c' k = field c k) /\
  (forall u, field c "audioUrl" = VStr u -> includes u blob_domain = true ->
             field c' "audioUrl" = VStr (relay_url base u)) /\
  (forall u, field c "audioUrl" = VStr u -> includes u blob_domain = false -> c' = c) /\
  (truthy (field c "audioUrl") = false -> c' = c).

(** How [getContributions] may change a fetched body: not at all when it
    has no [items]; otherwise only [items] is replaced, item by item. *)
Definition page_relayed (base : string) (data v : value) : Prop :=
  (truthy data && truthy (field data "items") = false /\ v = data) \/
  (exists props items items',
      data = VObj props /\ lookup "items" props = VArr items /\
      v = VObj (assign "items" (VArr items') props) /\
      Forall2 (relayed base) items items').

(** One request of [testApiConnection]. *)
Definition probe_request (base path : string) : request :=
  mkRequest false (base ++ path) no_options.

(** What a probe keeps of the way its fetch settled: the status with the
    parsed body (or "Failed" for a status outside 2xx); or, for a fetch
    that was rejected or a 2xx body that is not JSON, the error. *)
Definition probe_of (a : fetch_result) : Probe + error :=
  match a with
  | Rejected e => inr e
  | Responded r =>
      if ok r then
        match resp_json r with
        | inr v => inl (mkProbe (status r) v)
        | inl msg => inr (SyntaxError msg)
        end
      else inl (mkProbe (status r) (VStr "Failed"))
  end.

(** The report, from the way the four fetches settle: an error ends the
    run at any of the first three probes and is the whole report; at the
    fourth it is recorded in that probe's own place. *)
Definition report_of (base : string) (a1 a2 a3 a4 : fetch_result) : Report :=
  match probe_of a1 with
  | inr e => ErrorReport (message e)
  | inl p1 =>
      match probe_of a2 with
      | inr e => ErrorReport (message e)
      | inl p2 =>
          match probe_of a3 with
          | inr e => ErrorReport (message e)
          | inl p3 =>
              ProbeReport base p1 p2 p3
                (match probe_of a4 with
                 | inl p4 => p4
                 | inr e => mkProbe 500 (VStr ("Error: " ++ message e))
                 end)
          end
      end
  end.

(** The requests that leave: none after a probe that ended the run. *)
Definition probes_sent (base : string) (a1 a2 a3 : fetch_result) : list request :=
  probe_request base "/statistics" ::
  match probe_of a1 with
  | inr _ => []
  | inl _ =>
      probe_request base "/contributions?page=1&pageSize=5" ::
      match probe_of a2 with
      | inr _ => []
      | inl _ =>
          probe_request base "/sentences/random?count=3" ::
          match probe_of a3 with
          | inr _ => []
          | inl _ => [probe_request base "/ai/gemini-phrase?difficultyLevel=2"]
          end
      end
  end.

(** ** Worlds and data for the concrete runs *)

Definition json_response (code : Z) (v : value) : fetch_result :=
  Responded (mkResponse code "" "" (inr v)).

Definition sample_page : value :=
  VObj [("items",
         VArr [VObj [("id", VNum 1);
                     ("audioUrl", VStr "https://palefo.blob.core.windows.net/audio/1.wav")];
               VObj [("id", VNum 2); ("audioUrl", VStr "/audio/2.wav")];
               VObj [("id", VNum 3)]]);
        ("page", VNum 1)].

(** The primary server answers 500 to everything; the local one serves
    [sample_page]. *)
Definition primary_down : world :=
  mkWorld (fun _ r => if prefix API_BASE_URLS_local (req_url r)
                      then json_response 200 sample_page
                      else json_response 500 VNull)
          false false.

(** Every request is answered 200 with the given body. *)
Definition serving (v : value) : world :=
  mkWorld (fun _ _ => json_response 200 v) false false.

(** The statistics endpoint cannot be reached; everything else answers. *)
Definition statistics_unreachable : world :=
  mkWorld (fun _ r => if includes (req_url r) "/statistics"
                      then Rejected (TypeError "Failed to fetch")
                      else json_response 200 (VArr []))
          false false.

Definition leaderboard : value :=
  VArr [VObj [("email", VStr "ana@example.org"); ("contributionCount", VNum 12000)];
        VObj [("email", VStr "ben@example.org"); ("contributionCount", VNum 1000)];
        VObj [("email", VStr "cal@example.org"); ("contributionCount", VNum 999)]].

Definition moderation_queue : list value :=
  [VObj [("id", VNum 1); ("isApproved", VBool true)];
   VObj [("id", VNum 2); ("isApproved", VBool false); ("rejectionReason", VStr "noise")];
   VObj [("id", VNum 3); ("isApproved", VBool false); ("rejectionReason", VNull)]].

(** The page served by the fallback server, as [getContributions] returns
    it after the switch. *)
Definition sample_page_relayed : value :=
  VObj [("items",
         VArr [VObj [("id", VNum 1);
                     ("audioUrl",
                      VStr "https://localhost:7152/api/api/proxy-audio?url=https%3A%2F%2Fpalefo.blob.core.windows.net%2Faudio%2F1.wav")];
               VObj [("id", VNum 2); ("audioUrl", VStr "/audio/2.wav")];
               VObj [("id", VNum 3)]]);
        ("page", VNum 1)].

Definition recording : Blob := mkBlob 2048 (Some "audio/webm;codecs=opus").

Definition created_contribution : value :=
  VObj [("id", VNum 7); ("kreyolText", VStr "Bonjou"); ("isApproved", VBool false)].

(** U+00A0, the no-break space, and U+FEFF, the byte order mark, as the
    bytes of their UTF-8 text. *)
Definition no_break_space : string := String "194"%char (String "160"%char "").

Definition byte_order_mark : string :=
  String "239"%char (String "187"%char (String "191"%char "")).

(** ** Vocabulary of the further properties *)

(** A computation that neither reads nor writes local storage: started
    with another storage it ends the same way, leaves the same trace and
    flags, and hands the storage back as it got it. *)
Definition storage_blind {A} (m : M A) : Prop :=
  forall w s ls,
    m w (set_localStorage ls s) = (fst (m w s), set_localStorage ls (snd (m w s))).

(** A computation that has nothing to do with local storage: it is
    blind to it and hands it back as it got it. *)
Definition storage_free {A} (m : M A) : Prop :=
  storage_blind m /\ forall w s, localStorage (snd (m w s)) = localStorage s.

Definition is_getContributions (o : operation) : bool :=
  match o with GetContributions _ _ _ => true | _ => false end.

(** The error [submitContribution] raises for a recording that is absent
    or empty. *)
Definition invalid_audio : error :=
  Error "Invalid audio recording: The audio blob is empty or undefined.".

Definition no_audio (audioBlob : option Blob) : Prop :=
  audioBlob = None \/ exists b, audioBlob = Some b /\ blob_size b = 0.

Definition is_array (v : value) : bool :=
  match v with VArr _ => true | _ => false end.

(** No option of a phrase request is set: a category counts when it is
    not empty, a number whenever it is given. *)
Definition no_filters (o : PhraseOptions) : bool :=
  negb (truthy_str (category o)) &&
  match difficultyLevel o, minWords o, maxWords o with
  | None, None, None => true
  | _, _, _ => false
  end.

(** The request a phrase operation sends. *)
Definition phrase_request (base path : string) (options : option PhraseOptions) : request :=
  let o := dflt empty_PhraseOptions options in
  mkRequest false
    (base ++ path ++ (if no_filters o then "" else "?" ++ ApiService.phrase_query o))
    no_options.

(** Nothing can be reached. *)
Definition unreachable : world :=
  mkWorld (fun _ _ => Rejected (TypeError "Failed to fetch")) false false.

(** Every request is answered with the given status and a body that is
    not JSON. *)
Definition http_failure (code : Z) : world :=
  mkWorld (fun _ _ => Responded (mkResponse code "Bad Gateway" "upstream down" (inl "Unexpected token")))
          false false.

(** The primary server answers 503 and the local one cannot be reached. *)
Definition fallback_down : world :=
  mkWorld (fun _ r => if prefix API_BASE_URLS_local (req_url r)
                      then Rejected (TypeError "Failed to fetch")
                      else json_response 503 VNull)
          false false.

Definition newcomer_board : value :=
  VArr [VObj [("email", VStr "ana@example.org"); ("contributionCount", VNum 12000)];
        VObj [("email", VStr "dee@example.org"); ("contributionCount", VNull)]].

(* ================================================================== *)
(** * Lemmas *)
(* ================================================================== *)

(** ** Strings *)

Lemma append_assoc (a b c : string) : (a ++ b) ++ c = a ++ (b ++ c).
Proof. induction a as [|x a IH]; simpl; [reflexivity | now rewrite IH]. Qed.

Lemma prefix_app (p s : string) : prefix p (p ++ s) = true.
Proof.
  induction p as [|c p IH]; simpl.
  - destruct s; reflexivity.
  - destruct (ascii_dec c c); [exact IH | congruence].
Qed.

Lemma prefix_includes (p t : string) : prefix p t = true -> includes t p = true.
Proof. intros H. destruct t; cbn [includes]; rewrite H; reflexivity. Qed.

Lemma includes_prefix (p s : string) : includes (p ++ s) p = true.
Proof. apply prefix_includes, prefix_app. Qed.

(** ** Traces *)

Lemma since_app (s : state) (evs : list event) (s' : state) :
  trace s' = (trace s ++ evs)%list -> since s s' = evs.
Proof.
  intros E. unfold since. rewrite E.
  rewrite skipn_app, skipn_all, Nat.sub_diag. reflexivity.
Qed.

Lemma since_refl (s : state) : since s s = [].
Proof. apply since_app. now rewrite app_nil_r. Qed.

(** ** Symbolic execution of the monad *)

Ltac exec_monad :=
  cbv beta iota zeta delta
    [bind ret throw lift try_catch finally rethrow showLoading hideLoading getApiUrl
     ApiService.getApiUrl fetch corsProxy_fetch fetch_start fetch_await
     response_json response_text
     fetchWithCorsHandling fetchWithCorsHandling_start fetchWithCorsHandling_settle
     show_cors_toast emit set_loading set_usingFallbackUrl set_localStorage forget
     localStorage_setItem localStorage_getItem localStorage_removeItem
     call_member stringify ApiService.probe_payload
     apiUrl usingFallbackUrl loading_active localStorage trace fst snd
     sent_at sent dflt].

Ltac exec_step :=
  match goal with
  | |- context [match net ?w ?n ?r with _ => _ end] => destruct (net w n r) eqn:?
  | |- context [if ?b then _ else _] =>
      lazymatch b with
      | context [if _ then _ else _] => fail
      | context [match _ with _ => _ end] => fail
      | _ => destruct b eqn:?
      end
  | |- context [match ?x with _ => _ end] =>
      lazymatch x with
      | context [if _ then _ else _] => fail
      | context [match _ with _ => _ end] => fail
      | _ => destruct x eqn:?
      end
  end; exec_monad.

(** Closes [trace s' = trace s ++ ?evs /\ shape ?evs = true] once both
    traces are explicit. *)
Ltac close_trace :=
  cbv beta iota zeta delta [usingFallbackUrl loading_active localStorage trace apiUrl];
  repeat split;
  try (eexists; split;
       [ rewrite <- ?app_assoc; cbn [app]; reflexivity
       | cbn [guarded_calls calls_then_hide calls req_url];
         unfold ApiService.contributions_url;
         rewrite ?append_assoc, ?prefix_app; reflexivity ]).

Ltac exec_op := exec_monad; repeat exec_step; close_trace.

(** Reads [since s s'] off two explicit traces. *)
Ltac read_since :=
  match goal with
  | |- context [since ?s ?s'] =>
      let E := fresh "E" in
      eassert (E : since s s' = _);
      [ apply since_app; cbn [trace]; rewrite <- ?app_assoc; cbn [app]; reflexivity
      | rewrite E; clear E ]
  end.

Lemma length_snoc {A} (l : list A) (x : A) : length (l ++ [x]) = S (length l).
Proof. rewrite length_app, Nat.add_comm. reflexivity. Qed.

(** Feeds the world's answer [H : net w n r = _] to the run. *)
Ltac use_net H :=
  rewrite ?length_snoc;
  match type of H with
  | net ?w ?n ?r = _ =>
      match goal with
      | |- context [net w ?n' ?r'] =>
          change (net w n' r') with (net w n r); rewrite H
      end
  end; exec_monad.

(** ** Reads and array helpers *)

Lemma get_field (c : value) (k : string) : is_record c -> get c k = Ok (field c k).
Proof. intros [Hn Hu]. destruct c; try congruence; reflexivity. Qed.

Lemma findM_first f before c after :
  Forall (fun x => f x = Ok false) before -> f c = Ok true ->
  findM f (before ++ c :: after) = Ok (Some c).
Proof.
  intros Hb Hc. induction Hb as [|x l Hx _ IH]; simpl.
  - now rewrite Hc.
  - now rewrite Hx.
Qed.

Lemma findM_none f items :
  Forall (fun x => f x = Ok false) items -> findM f items = Ok None.
Proof.
  intros H. induction H as [|x l Hx _ IH]; simpl; [reflexivity | now rewrite Hx].
Qed.

Lemma filterM_filter {A} (f : A -> outcome bool) (g : A -> bool) items :
  Forall (fun x => f x = Ok (g x)) items ->
  filterM f items = Ok (List.filter g items).
Proof.
  intros H. induction H as [|x l Hx _ IH]; simpl; [reflexivity|].
  rewrite Hx, IH. reflexivity.
Qed.

(** ** The shapes of a trace *)

Lemma calls_under base evs : calls base evs = true -> under base evs.
Proof.
  unfold under. revert evs.
  fix IH 1. intros [|e evs]; intros H; [constructor|].
  destruct e; try discriminate.
  - destruct evs as [|e2 evs]; [discriminate|]. destruct e2; try discriminate.
    cbn [calls] in H. apply andb_prop in H as [H1 H2].
    cbn [requests]. constructor; [exact H1 | apply IH, H2].
  - cbn [calls requests] in *. apply IH, H.
Qed.

Lemma calls_quiet base evs : calls base evs = true -> touches_loading evs = false.
Proof.
  revert evs. fix IH 1. intros [|e evs]; intros H; [reflexivity|].
  destruct e; try discriminate.
  - destruct evs as [|e2 evs]; [discriminate|]. destruct e2; try discriminate.
    cbn [calls] in H. apply andb_prop in H as [H1 H2].
    cbn [touches_loading]. apply IH, H2.
  - cbn [calls touches_loading] in *. apply IH, H.
Qed.

Lemma calls_then_hide_under base evs : calls_then_hide base evs = true -> under base evs.
Proof.
  unfold under. revert evs.
  fix IH 1. intros [|e evs]; intros H; [constructor|].
  destruct e; try discriminate.
  - destruct evs; [constructor | discriminate].
  - destruct evs as [|e2 evs]; [discriminate|]. destruct e2; try discriminate.
    cbn [calls_then_hide] in H. apply andb_prop in H as [H1 H2].
    cbn [requests]. constructor; [exact H1 | apply IH, H2].
  - cbn [calls_then_hide requests] in *. apply IH, H.
Qed.

Lemma calls_then_hide_covered base evs :
  calls_then_hide base evs = true ->
  loading_covers true 0 evs = true /\ last evs EvShowLoading = EvHideLoading.
Proof.
  revert evs. fix IH 1. intros [|e evs]; intros H; [discriminate|].
  destruct e; try discriminate.
  - destruct evs; [split; reflexivity | discriminate].
  - destruct evs as [|e2 evs]; [discriminate|]. destruct e2; try discriminate.
    cbn [calls_then_hide] in H. apply andb_prop in H as [H1 H2].
    destruct (IH _ H2) as [Hc Hl].
    split; [exact Hc|].
    destruct evs; [discriminate | exact Hl].
  - cbn [calls_then_hide] in H. destruct (IH _ H) as [Hc Hl].
    split; [exact Hc|]. destruct evs; [discriminate | exact Hl].
Qed.

Lemma guarded_calls_spec base evs :
  guarded_calls base evs = true ->
  under base evs /\ loading_covers false 0 evs = true /\
  hd_error evs = Some EvShowLoading /\ last evs EvShowLoading = EvHideLoading.
Proof.
  destruct evs as [|[] rest]; try discriminate. cbn [guarded_calls]. intros H.
  destruct (calls_then_hide_covered _ _ H) as [Hc Hl].
  repeat split.
  - exact (calls_then_hide_under _ _ H).
  - exact Hc.
  - destruct rest; [discriminate | exact Hl].
Qed.

Lemma fallback_retry_uncovered evs :
  fallback_retry evs = true -> loading_covers false 0 evs = false.
Proof.
  destruct evs as [|[] [|[] [|[] rest]]]; try discriminate.
  cbn [fallback_retry]. intros H. apply andb_prop in H as [_ H].
  assert (G : forall l, match drop_toast l with
      | EvShowLoading :: EvRequest r2 :: EvHideLoading :: EvSettled :: rest' =>
          prefix API_BASE_URLS_local (req_url r2) &&
          match drop_toast rest' with
          | [EvHideLoading] => true
          | _ => false
          end
      | _ => false
      end = true -> loading_covers true 0 l = false).
  { intros l Hl. 
    assert (K : forall l', match l' with
      | EvShowLoading :: EvRequest r2 :: EvHideLoading :: EvSettled :: rest' =>
          prefix API_BASE_URLS_local (req_url r2) &&
          match drop_toast rest' with
          | [EvHideLoading] => true
          | _ => false
          end
      | _ => false
      end = true -> loading_covers true 0 l' = false).
    { intros [|[] [|[] [|[] l']]]; try discriminate. reflexivity. }
    destruct l as [|[] l]; cbn [drop_toast] in Hl; try (apply K; exact Hl).
    cbn [loading_covers]. apply K, Hl. }
  cbn [loading_covers andb Nat.pred]. apply G, H.
Qed.

(** ** Post-processing reads the state and nothing more *)

Lemma value_includes_ends url needle : value_includes url needle <> OutOfFuel.
Proof. destruct url; discriminate. Qed.

Lemma get_ends c k : get c k <> OutOfFuel.
Proof. destruct c; discriminate. Qed.

Lemma as_array_ends v recv name : as_array v recv name <> OutOfFuel.
Proof. destruct v; discriminate. Qed.

Ltac ends :=
  split; [reflexivity | first [discriminate | congruence
    | exfalso; match goal with
      | H : value_includes _ _ = OutOfFuel |- _ => exact (value_includes_ends _ _ H)
      | H : get _ _ = OutOfFuel |- _ => exact (get_ends _ _ H)
      | H : as_array _ _ _ = OutOfFuel |- _ => exact (as_array_ends _ _ _ H)
      end]].

Lemma getProxiedUrl_reads_only url : reads_only (getProxiedUrl url).
Proof.
  intros w [fb ld ls tr]. unfold getProxiedUrl. exec_monad.
  repeat exec_step; ends.
Qed.

Lemma proxy_audio_reads_only c : reads_only (ApiService.proxy_audio c).
Proof.
  intros w s. unfold ApiService.proxy_audio. exec_monad.
  destruct (get c "audioUrl") as [a| |] eqn:E; exec_monad; try ends.
  destruct (truthy a); [|ends].
  destruct (getProxiedUrl_reads_only a w s) as [Hs Hf].
  destruct (getProxiedUrl a w s) as [[u| |] s']; cbn [fst snd] in *; subst; ends.
Qed.

Lemma mapM_reads_only {A B} (f : A -> M B) xs :
  (forall x, reads_only (f x)) -> reads_only (mapM f xs).
Proof.
  intros Hf w s. induction xs as [|x xs IH]; cbn [mapM].
  - split; [reflexivity | discriminate].
  - unfold bind. destruct (Hf x w s) as [Hs Hr].
    destruct (f x w s) as [[y| |] s1]; cbn [fst snd] in *; subst; try ends.
    destruct IH as [Hs' Hr'].
    destruct (mapM f xs w s) as [[ys| |] s2]; cbn [fst snd] in *; subst; ends.
Qed.

Lemma proxy_items_reads_only data : reads_only (ApiService.proxy_items data).
Proof.
  intros w s. unfold ApiService.proxy_items.
  destruct (truthy data && truthy (field data "items")); [|split; [reflexivity|discriminate]].
  unfold bind, lift.
  destruct (as_array (field data "items") "data.items" "map") as [items| |] eqn:E;
    try ends.
  destruct (mapM_reads_only ApiService.proxy_audio items proxy_audio_reads_only w s) as [Hs Hr].
  destruct (mapM ApiService.proxy_audio items w s) as [[ys| |] s2]; cbn [fst snd] in *; subst; ends.
Qed.

Lemma fetchWithCorsHandling_settle_effect p w s :
  exists t, (t = [] \/ t = [EvToast]) /\
    snd (fetchWithCorsHandling_settle p w s) =
      mkState (usingFallbackUrl s) (loading_active s) (localStorage s)
              (trace s ++ EvSettled :: t) /\
    fst (fetchWithCorsHandling_settle p w s) <> OutOfFuel.
Proof.
  destruct s as [fb ld ls tr]. exec_monad.
  repeat exec_step;
    first [ exists []; split; [now left|]; split; [reflexivity|discriminate]
          | exists [EvToast]; split; [now right|]; split;
            [rewrite <- app_assoc; reflexivity|discriminate] ].
Qed.

Lemma getContributions_try_effect p w s :
  exists t, (t = [] \/ t = [EvToast]) /\
    snd (ApiService.getContributions_try p w s) =
      mkState (usingFallbackUrl s) (loading_active s) (localStorage s)
              (trace s ++ EvSettled :: t) /\
    fst (ApiService.getContributions_try p w s) <> OutOfFuel.
Proof.
  unfold ApiService.getContributions_try, bind.
  destruct (fetchWithCorsHandling_settle_effect p w s) as (t & Ht & Hs & Hr).
  exists t. split; [exact Ht|].
  destruct (fetchWithCorsHandling_settle p w s) as [[v| |] s1];
    cbn [fst snd] in *; subst; try ends.
  apply proxy_items_reads_only.
Qed.

Lemma getContributions_effect page pageSize inc w s :
  effect (GetContributions page pageSize inc) s
         (snd (run (GetContributions page pageSize inc) w s)).
Proof.
  destruct s as [fb ld ls tr]. cbn [effect run].
  unfold forget, ApiService.getContributions, ApiService.getContributions_start.
  exec_monad.
  match goal with
  | |- context [ApiService.getContributions_settle 1 ?a ?b ?p w ?s0] =>
      remember p as p1 eqn:Ep1; remember s0 as s0' eqn:Es0; remember a as pg; remember b as ps
  end.
  cbn [ApiService.getContributions_settle].
  destruct (getContributions_try_effect p1 w s0') as (t & Ht & Hs & Hr).
  destruct (ApiService.getContributions_try p1 w s0') as [[data|e|] s1];
    cbn [fst snd] in Hs, Hr; [| |congruence]; subst s1 s0';
    cbn [usingFallbackUrl loading_active localStorage trace].
  - left. exec_monad. unfold calls_under_loading. 
    destruct Ht as [-> | ->]; close_trace.
  - destruct (negb fb && includes (message e) "API error") eqn:Hc.
    + right. destruct fb; [discriminate|].
      unfold ApiService.getContributions_start. exec_monad.
      match goal with
      | |- context [ApiService.getContributions_try ?p w ?s0] =>
          remember p as p2 eqn:Ep2; remember s0 as s2 eqn:Es2
      end.
      destruct (getContributions_try_effect p2 w s2) as (t2 & Ht2 & Hs2 & Hr2).
      destruct (ApiService.getContributions_try p2 w s2) as [[data2|e2|] s3];
        cbn [fst snd] in Hs2, Hr2; [| |congruence]; subst s3 s2;
        cbn [usingFallbackUrl loading_active localStorage trace negb andb];
        exec_monad; unfold switches_to_fallback;
        cbv beta iota zeta delta [usingFallbackUrl loading_active localStorage trace];
        repeat split;
        (eexists; split; [rewrite <- ?app_assoc; cbn [app]; reflexivity|]);
        destruct Ht as [-> | ->]; destruct Ht2 as [-> | ->];
        cbn [app fallback_retry drop_toast req_url]; unfold ApiService.contributions_url;
        change API_BASE_URL with (base_url false);
        change API_BASE_URLS_local with (base_url true);
        rewrite ?prefix_app; reflexivity.
    + left. exec_monad. unfold calls_under_loading.
      destruct Ht as [-> | ->]; close_trace.
Qed.

(** ** What every operation does to the state *)

Lemma run_effect (o : operation) (w : world) (s : state) :
  effect o s (snd (run o w s)).
Proof.
  destruct o; try apply getContributions_effect;
    destruct s as [fb ld ls tr]; cbn [effect run].
  - reflexivity.
  - unfold ApiService.setApiUrl, stays_offline. exec_op.
  - unfold ApiService.getRandomSentences, calls_under_loading. exec_op.
  - unfold ApiService.getSentencesByCategory, calls_under_loading. exec_op.
  - unfold ApiService.getSentencesByCategorySimple, calls_under_loading. exec_op.
  - unfold ApiService.getSentencesByDifficulty, calls_under_loading. exec_op.
  - unfold ApiService.getStatistics, calls_under_loading. exec_op.
  - unfold ApiService.getTopContributors, calls_under_loading. exec_op.
  - unfold ApiService.submitContribution, calls_under_loading. exec_op.
  - unfold ApiService.getContributionById, calls_under_loading. exec_op.
  - unfold ApiService.checkPrizeEligibility, ApiService.getTopContributors,
      ApiService.value_ge, ApiService.value_rsub, calls_under_loading.
    exec_monad. repeat exec_step;
      first [left; reflexivity | right; close_trace].
  - unfold ApiService.authenticateAdmin, stays_offline. exec_op.
  - reflexivity.
  - unfold ApiService.logoutAdmin, stays_offline. exec_op.
  - unfold ApiService.testApiConnection, calls_bare. exec_monad. repeat exec_step.
    all: cbv beta iota zeta delta [usingFallbackUrl loading_active localStorage trace apiUrl];
      repeat split.
    all: eexists; (split; [rewrite <- ?app_assoc; cbn [app]; reflexivity|]).
    all: cbn [calls req_url requests]; rewrite ?prefix_app; split;
      [reflexivity | discriminate].
  - unfold ApiService.getContributionsForModeration, calls_under_loading. exec_op.
  - unfold ApiService.moderateContribution, calls_under_loading. exec_op.
  - unfold ApiService.getAIGeneratedPhrase, calls_under_loading. exec_op.
  - unfold ApiService.getGeminiPhrase, calls_under_loading. exec_op.
Qed.

(** ** Every operation ends *)








(* ================================================================== *)
(** * The file extension of an upload *)
(* ================================================================== *)

(** C7.  The extension given to the uploaded file depends on the declared
    media type of the audio blob alone: "mp3" when the type contains
    "mpeg" or "mp3", otherwise "webm" when it contains "webm", otherwise
    (an absent type included) "wav"; and this is the extension in the
    file name of the "AudioFile" part of every upload. *)
Theorem fileExtension_by_media_type :
  (forall type : option string,
      ApiService.fileExtension type =
      match type with
      | Some t =>
          if includes t "mpeg" || includes t "mp3" then "mp3"
          else if includes t "webm" then "webm"
          else "wav"
      | None => "wav"
      end) /\
  (forall text audioBlob email gender region,
      In (FormFile "AudioFile" audioBlob
                   ("recording." ++ ApiService.fileExtension (blob_type audioBlob)))
         (ApiService.formData text audioBlob email gender region)).
Proof.
  split.
  - intros [t|]; [|reflexivity].
    unfold ApiService.fileExtension, truthy_str, dflt.
    destruct (String.eqb_spec t ""); [subst; reflexivity | reflexivity].
  - intros. unfold ApiService.formData. right. left. reflexivity.
Qed.

(* ================================================================== *)
(** * Moderation needs a reason to reject *)
(* ================================================================== *)

(** C8.  Rejecting without a rejection reason (absent, null or empty)
    fails with the "Rejection reason is required" error, whatever the id,
    and no request leaves; approving sends the PATCH request whether or
    not a reason is given, and a 2xx JSON answer is returned. *)
Theorem moderateContribution_requires_reason :
  forall (id : Z) (rejectionReason : option string) (w : world) (s : state),
    (truthy_str rejectionReason = false ->
     fst (ApiService.moderateContribution id false rejectionReason w s)
       = Throw rejection_required /\
     requests (since s (snd (ApiService.moderateContribution id false rejectionReason w s)))
       = []) /\
    requests (since s (snd (ApiService.moderateContribution id true rejectionReason w s)))
      = [approval_request (apiUrl s) id true rejectionReason] /\
    (forall r v,
        net w (S (length (trace s))) (approval_request (apiUrl s) id true rejectionReason)
          = Responded r ->
        ok r = true -> resp_json r = inr v ->
        fst (ApiService.moderateContribution id true rejectionReason w s) = Ok v).
Proof.
  intros id reason w [fb ld ls tr].
  unfold ApiService.moderateContribution, approval_request.
  split; [|split].
  - intros H. rewrite H. exec_monad. cbn [negb andb]. exec_monad.
    split; [reflexivity|]. read_since. reflexivity.
  - cbn [negb andb]. exec_monad. repeat exec_step; read_since; reflexivity.
  - intros r v Hnet Hok Hjson. cbn [negb andb]. exec_monad.
    cbv beta iota delta [apiUrl usingFallbackUrl trace] in Hnet.
    rewrite length_app, Nat.add_comm. cbn [length Nat.add].
    rewrite Hnet. exec_monad. rewrite Hok. cbn [negb]. exec_monad.
    rewrite Hjson. reflexivity.
Qed.

(* ================================================================== *)
(** * Prize eligibility *)
(* ================================================================== *)

Lemma email_is_other address x :
  other_contributor address x -> ApiService.email_is address x = Ok false.
Proof.
  intros (Hr & He). unfold ApiService.email_is. rewrite (get_field _ _ Hr).
  destruct (field x "email"); try reflexivity.
  destruct (String.eqb_spec s address); [subst; congruence | reflexivity].
Qed.

Lemma email_is_match address c :
  field c "email" = VStr address -> ApiService.email_is address c = Ok true.
Proof.
  intros H. unfold ApiService.email_is. destruct c; try discriminate.
  cbn [get field] in *. rewrite H, String.eqb_refl. reflexivity.
Qed.

Lemma getTopContributors_ok limit w fb ld ls tr r v :
  net w (S (length tr))
      (mkRequest false (base_url fb ++ "/contributors/top?limit=" ++ show_Z (dflt 10 limit))
                 no_options) = Responded r ->
  ok r = true -> resp_json r = inr v ->
  ApiService.getTopContributors limit w (mkState fb ld ls tr) =
  (Ok v,
   mkState fb false ls
     (tr ++ [EvShowLoading;
             EvRequest (mkRequest false
                          (base_url fb ++ "/contributors/top?limit=" ++ show_Z (dflt 10 limit))
                          no_options);
             EvSettled; EvHideLoading])).
Proof.
  intros Hnet Hok Hj. unfold ApiService.getTopContributors. exec_monad.
  use_net Hnet. rewrite Hok. cbn [negb]. exec_monad.
  rewrite Hj. rewrite <- !app_assoc. reflexivity.
Qed.

(** C5.  Without an email (absent, null or empty) the answer is the fixed
    "not eligible" record with a count of 0 and the state is untouched, so
    nothing was sent.  With an email exactly one request leaves, for the
    top 50 contributors; the first row carrying that email decides: with
    a count of [n], laptop eligibility is [n >= 10000], t-shirt
    eligibility is [n >= 1000], and [eligible] is the t-shirt eligibility;
    when no row carries the email the answer is "not eligible", count 0. *)
Theorem checkPrizeEligibility_thresholds :
  forall (email : option string) (w : world) (s : state),
    (truthy_str email = false ->
     ApiService.checkPrizeEligibility email w s
       = (Ok (mkEligibility false "Email required for prize eligibility"
                            (VNum 0) false false), s)) /\
    (truthy_str email = true ->
     requests (since s (snd (ApiService.checkPrizeEligibility email w s)))
       = [top50_request (apiUrl s)] /\
     forall address r,
       email = Some address ->
       net w (S (length (trace s))) (top50_request (apiUrl s)) = Responded r ->
       ok r = true ->
       (forall before c after n,
           resp_json r = inr (VArr (before ++ c :: after)) ->
           Forall (other_contributor address) before ->
           field c "email" = VStr address ->
           field c "contributionCount" = VNum n ->
           exists text,
             fst (ApiService.checkPrizeEligibility email w s)
               = Ok (mkEligibility (1000 <=? n) text (VNum n)
                                   (10000 <=? n) (1000 <=? n))) /\
       (forall items,
           resp_json r = inr (VArr items) ->
           Forall (other_contributor address) items ->
           fst (ApiService.checkPrizeEligibility email w s)
             = Ok (mkEligibility false "No contributions found for this email"
                                 (VNum 0) false false))).
Proof.
  intros email w [fb ld ls tr].
  unfold ApiService.checkPrizeEligibility, top50_request.
  split; [|intros H; split].
  - intros H. rewrite H. reflexivity.
  - rewrite H. cbn [negb].
    unfold ApiService.getTopContributors, ApiService.value_ge, ApiService.value_rsub.
    exec_monad. repeat exec_step; read_since; reflexivity.
  - intros address r -> Hnet Hok.
    cbv beta iota delta [apiUrl usingFallbackUrl trace] in Hnet.
    rewrite H. cbn [negb]. split.
    + intros before c after n Hj Hb Hc Hn.
      unfold try_catch, bind at 1.
      rewrite (getTopContributors_ok (Some 50) _ _ _ _ _ _ _ Hnet Hok Hj).
      exec_monad. cbn [as_array].
      rewrite (findM_first _ before c after).
      2:{ eapply Forall_impl; [|exact Hb]. apply email_is_other. }
      2:{ now apply email_is_match. }
      rewrite Hn. unfold ApiService.value_ge, ApiService.value_rsub.
      destruct (Z.eqb_spec n 0) as [->|Hn0];
        cbn [truthy negb to_number Z.eqb number_ge number_rsub]; exec_monad.
      * eexists. reflexivity.
      * rewrite (proj2 (Z.eqb_neq n 0) Hn0). cbn [negb to_number]. exec_monad.
        cbn [number_ge].
        destruct (10000 <=? n) eqn:E1; destruct (1000 <=? n) eqn:E2;
          exec_monad; eexists; reflexivity.
    + intros items Hj Hall.
      unfold try_catch, bind at 1.
      rewrite (getTopContributors_ok (Some 50) _ _ _ _ _ _ _ Hnet Hok Hj).
      exec_monad. cbn [as_array].
      rewrite findM_none; [reflexivity|].
      eapply Forall_impl; [|exact Hall]. apply email_is_other.
Qed.

(* ================================================================== *)
(** * The moderation buckets *)
(* ================================================================== *)

Lemma filter_predicate_bucket filter c :
  is_record c ->
  ApiService.filter_predicate filter c = Ok (in_bucket (bucket_named filter) c).
Proof.
  intros Hc. unfold ApiService.filter_predicate, bucket_named.
  destruct (filter =? "approved")%string; [|destruct (filter =? "rejected")%string];
    unfold ApiService.is_approved, ApiService.is_rejected, ApiService.is_pending;
    rewrite (get_field _ _ Hc); cbn [in_bucket];
    destruct (truthy (field c "isApproved")); reflexivity.
Qed.

Lemma in_bucket_unique c :
  exists b, in_bucket b c = true /\ forall b', in_bucket b' c = true -> b' = b.
Proof.
  destruct (truthy (field c "isApproved")) eqn:Ha;
    [exists ApprovedBucket | destruct (truthy (field c "rejectionReason")) eqn:Hr;
                       [exists RejectedBucket | exists PendingBucket]];
    (split; [cbn; rewrite ?Ha, ?Hr; reflexivity |]);
    intros [] Hb; cbn in Hb; rewrite ?Ha, ?Hr in Hb; try discriminate; reflexivity.
Qed.

(** C6.  When the server answers the moderation request with an array of
    contributions, the page returned holds exactly the contributions of
    the bucket the filter names ("pending" when the filter is omitted),
    in their order; and every contribution of the array is in exactly one
    of the three buckets approved / rejected / pending. *)
Theorem moderation_partition :
  forall (page pageSize : option Z) (filter : option string) (w : world) (s : state)
         (r : response) (items : list value),
    net w (S (length (trace s)))
        (moderation_request (apiUrl s) (dflt 1 page) (dflt 10 pageSize)) = Responded r ->
    ok r = true ->
    resp_json r = inr (VArr items) ->
    Forall is_record items ->
    fst (ApiService.getContributionsForModeration page pageSize filter w s)
      = Ok (mkModerationPage
              (List.filter (in_bucket (bucket_named (dflt "pending" filter))) items)
              (dflt 1 page) (dflt 10 pageSize) (dflt "pending" filter)) /\
    (forall c, In c items ->
       exists b, in_bucket b c = true /\ forall b', in_bucket b' c = true -> b' = b).
Proof.
  intros page pageSize filter w [fb ld ls tr] r items Hnet Hok Hjson Hitems.
  split; [|intros c _; apply in_bucket_unique].
  unfold ApiService.getContributionsForModeration, moderation_request in *.
  cbv beta iota delta [apiUrl usingFallbackUrl trace] in Hnet.
  exec_monad. use_net Hnet. rewrite Hok. cbn [negb]. exec_monad.
  rewrite Hjson. cbn [as_array].
  rewrite (filterM_filter _ (in_bucket (bucket_named
             match filter with Some a => a | None => "pending" end))).
  - reflexivity.
  - eapply Forall_impl; [|exact Hitems]. intros c Hc. now apply filter_predicate_bucket.
Qed.

(* ================================================================== *)
(** * The fallback retry of [getContributions] *)
(* ================================================================== *)

Lemma getContributions_settle_fallback depth page pageSize p w s :
  usingFallbackUrl s = true ->
  ApiService.getContributions_settle depth page pageSize p w s =
  (fst (ApiService.getContributions_try p w s),
   emit EvHideLoading (set_loading false (snd (ApiService.getContributions_try p w s)))).
Proof.
  intros Hs. destruct (getContributions_try_effect p w s) as (t & _ & Hst & Hr).
  destruct depth; cbn [ApiService.getContributions_settle];
    destruct (ApiService.getContributions_try p w s) as [[v|e|] s1];
    cbn [fst snd] in *; subst s1; try congruence;
    cbn [usingFallbackUrl]; rewrite ?Hs; reflexivity.
Qed.

(** C1.  What the fallback policy does.  When [usingFallbackUrl] is off and
    the primary server answers the call with a status outside 2xx, the
    flag is set and exactly one more request leaves, to the fallback base
    URL, with the same page and page size -- and with [includeUnapproved]
    off whatever the caller asked for: the nested call is made with two
    arguments.  When the flag is already on, one request leaves, to the
    fallback base URL, and a rejected fetch reaches the caller as it is. *)
Theorem getContributions_fallback_retry :
  forall (page pageSize : option Z) (includeUnapproved : option bool)
         (w : world) (s : state),
    (forall r,
        usingFallbackUrl s = false ->
        net w (S (length (trace s)))
            (contributions_request API_BASE_URL (dflt 1 page) (dflt 20 pageSize)
                                   (dflt false includeUnapproved)) = Responded r ->
        ok r = false ->
        usingFallbackUrl
          (snd (ApiService.getContributions page pageSize includeUnapproved w s)) = true /\
        requests (since s (snd (ApiService.getContributions page pageSize
                                                             includeUnapproved w s)))
          = [contributions_request API_BASE_URL (dflt 1 page) (dflt 20 pageSize)
                                   (dflt false includeUnapproved);
             contributions_request API_BASE_URLS_local (dflt 1 page) (dflt 20 pageSize)
                                   false]) /\
    (usingFallbackUrl s = true ->
     requests (since s (snd (ApiService.getContributions page pageSize
                                                          includeUnapproved w s)))
       = [contributions_request API_BASE_URLS_local (dflt 1 page) (dflt 20 pageSize)
                                (dflt false includeUnapproved)] /\
     forall e,
       net w (S (length (trace s)))
           (contributions_request API_BASE_URLS_local (dflt 1 page) (dflt 20 pageSize)
                                  (dflt false includeUnapproved)) = Rejected e ->
       fst (ApiService.getContributions page pageSize includeUnapproved w s) = Throw e).
Proof.
  intros page pageSize inc w [fb ld ls tr]. cbn [usingFallbackUrl trace]. split.
  - intros r -> Hnet Hok.
    destruct (ApiService.getContributions page pageSize inc w _) as [res s'] eqn:E.
    cbn [fst snd]. revert E.
    unfold ApiService.getContributions, ApiService.getContributions_start. exec_monad.
    cbn [ApiService.getContributions_settle].
    unfold ApiService.getContributions_try at 1. exec_monad.
    unfold contributions_request in Hnet. use_net Hnet. rewrite Hok. cbn [negb]. exec_monad.
    cbn [message Error].
    destruct (includes ("API error: " ++ show_Z (status r)) cors_marker);
      [destruct (toast_container w)|]; exec_monad; cbn [message Error];
      change ("API error: " ++ show_Z (status r))
        with ("API error" ++ ": " ++ show_Z (status r));
      rewrite includes_prefix; cbn [negb andb];
      unfold ApiService.getContributions_start; exec_monad;
      match goal with
      | |- context [ApiService.getContributions_try ?p w ?s0] =>
          destruct (getContributions_try_effect p w s0) as (t2 & Ht2 & Hs2 & Hr2);
          destruct (ApiService.getContributions_try p w s0) as [[v2|e2|] s3]
      end; cbn [fst snd usingFallbackUrl loading_active localStorage trace] in Hs2, Hr2;
      try congruence; subst s3; cbn [usingFallbackUrl negb andb]; exec_monad;
      intros E; injection E as <- <-;
      (split; [reflexivity|]); read_since;
      destruct Ht2 as [-> | ->]; reflexivity.
  - intros ->.
    destruct (ApiService.getContributions page pageSize inc w _) as [res s'] eqn:E.
    cbn [fst snd]. revert E.
    unfold ApiService.getContributions, ApiService.getContributions_start. exec_monad.
    rewrite getContributions_settle_fallback by reflexivity.
    match goal with
    | |- context [ApiService.getContributions_try ?p w ?s0] =>
        destruct (getContributions_try_effect p w s0) as (t2 & Ht2 & Hs2 & Hr2);
        destruct (ApiService.getContributions_try p w s0) as [res1 s3] eqn:Et
    end.
    cbn [fst snd usingFallbackUrl loading_active localStorage trace] in Hs2 |- *.
    subst s3. intros E; injection E as <- <-. split.
    + cbv beta iota zeta delta [emit set_loading usingFallbackUrl loading_active
                                localStorage trace].
      read_since. destruct Ht2 as [-> | ->]; reflexivity.
    + intros e Hnet. revert Et.
      unfold ApiService.getContributions_try. exec_monad.
      unfold contributions_request in Hnet. use_net Hnet.
      destruct (includes (message e) cors_marker); exec_monad;
        [destruct (toast_container w)|]; intros Et; injection Et as <- _; reflexivity.
Qed.

(* ================================================================== *)
(** * Submitting a contribution *)
(* ================================================================== *)

(** C3.  What [submitContribution] does with the server's answer.  It
    never returns: every call ends in an error.  With audio that is not
    empty, a 2xx answer with a JSON body ends in a TypeError, because the
    parsed body is then treated as a [Response]; an answer outside 2xx
    ends in the error "API error: <status>", which holds the status and
    nothing of what the server wrote. *)
Theorem submitContribution_never_returns :
  forall (text : string) (audioBlob : option Blob) (email gender region : option string)
         (w : world) (s : state),
    (exists e,
        fst (ApiService.submitContribution text audioBlob email gender region w s)
          = Throw e) /\
    (forall blob r,
        audioBlob = Some blob -> blob_size blob <> 0 ->
        net w (S (length (trace s)))
            (upload_request (apiUrl s) text blob email gender region) = Responded r ->
        (forall v, ok r = true -> resp_json r = inr v -> is_record v ->
           fst (ApiService.submitContribution text audioBlob email gender region w s)
             = Throw (TypeError (if truthy (field v "ok")
                                 then "response.json is not a function"
                                 else "response.text is not a function"))) /\
        (ok r = false ->
           fst (ApiService.submitContribution text audioBlob email gender region w s)
             = Throw (Error ("API error: " ++ show_Z (status r))))).
Proof.
  intros text audioBlob email gender region w [fb ld ls tr]. split.
  - unfold ApiService.submitContribution. exec_monad.
    repeat exec_step; try (eexists; reflexivity).
    all: exfalso; eapply get_ends; eassumption.
  - intros blob r -> Hsize Hnet.
    cbv beta iota delta [apiUrl usingFallbackUrl trace] in Hnet.
    unfold upload_request in Hnet.
    unfold ApiService.submitContribution. exec_monad.
    rewrite (proj2 (Z.eqb_neq _ _) Hsize). exec_monad. use_net Hnet.
    split.
    + intros v Hok Hj Hv. rewrite Hok. cbn [negb]. exec_monad. rewrite Hj.
      rewrite (get_field _ _ Hv). destruct (truthy (field v "ok")); reflexivity.
    + intros Hok. rewrite Hok. cbn [negb]. exec_monad.
      cbn [message Error].
      destruct (includes ("API error: " ++ show_Z (status r)) cors_marker);
        [destruct (toast_container w)|]; reflexivity.
Qed.

(* ================================================================== *)
(** * Audio URLs behind the relay *)
(* ================================================================== *)

Lemma lookup_assign_other k k' v props :
  k' <> k -> lookup k' (assign k v props) = lookup k' props.
Proof.
  intros Hk. induction props as [|[k0 v0] props IH]; cbn [assign lookup].
  - destruct (String.eqb_spec k k'); [congruence | reflexivity].
  - destruct (String.eqb_spec k0 k) as [->|Hk0]; cbn [lookup].
    + destruct (String.eqb_spec k k'); [congruence | reflexivity].
    + destruct (String.eqb_spec k0 k'); [reflexivity | exact IH].
Qed.

Lemma lookup_assign_same k v props : lookup k (assign k v props) = v.
Proof.
  induction props as [|[k0 v0] props IH]; cbn [assign lookup].
  - now rewrite String.eqb_refl.
  - destruct (String.eqb_spec k0 k) as [->|Hk0]; cbn [lookup].
    + now rewrite String.eqb_refl.
    + destruct (String.eqb_spec k0 k); [congruence | exact IH].
Qed.

Lemma assign_lookup k props :
  lookup k props <> VUndefined -> assign k (lookup k props) props = props.
Proof.
  induction props as [|[k0 v0] props IH]; cbn [assign lookup]; [congruence|].
  destruct (String.eqb_spec k0 k) as [->|Hk0]; [reflexivity|].
  intros H. now rewrite IH.
Qed.

Lemma proxy_audio_ok c w s c' :
  fst (ApiService.proxy_audio c w s) = Ok c' -> relayed (apiUrl s) c c'.
Proof.
  destruct s as [fb ld ls tr]. unfold ApiService.proxy_audio, getProxiedUrl, relayed, relay_url.
  exec_monad.
  destruct c as [| | | | |items|props]; cbn [get field]; exec_monad; cbn [truthy];
    try discriminate;
    try (intros E; injection E as <-; repeat split; intros; (reflexivity || discriminate)).
  destruct (truthy (lookup "audioUrl" props)) eqn:Ht.
  2:{ intros E; injection E as <-; repeat split; try reflexivity.
      intros u Hu Hi. rewrite Hu in Ht. destruct u; discriminate. }
  destruct (lookup "audioUrl" props) as [| | | |u|xs|o] eqn:Ha; try discriminate;
    cbn [value_includes]; exec_monad; try discriminate.
  - (* a text URL *)
    destruct (includes u blob_domain) eqn:Hi; cbn [to_string]; exec_monad;
      intros E; injection E as <-; cbn [field]; repeat split.
    + intros k Hk. now apply lookup_assign_other.
    + intros u' [= <-] _. apply lookup_assign_same.
    + intros u' [= <-]. congruence.
    + discriminate.
    + intros k Hk. now apply lookup_assign_other.
    + intros u' [= <-]. congruence.
    + intros u' [= <-] _. rewrite <- Ha. now rewrite assign_lookup by congruence.
    + discriminate.
  - (* an array in place of the URL *)
    destruct (existsb _ xs); exec_monad;
      [destruct (to_string (VArr xs)); exec_monad; [|discriminate]|];
      intros E; injection E as <-; cbn [field]; repeat split;
      try discriminate; intros k Hk; now apply lookup_assign_other.
Qed.

Lemma mapM_Forall2 {A B} (f : A -> M B) (R : A -> B -> Prop) xs w s ys :
  (forall x, reads_only (f x)) ->
  (forall x y, fst (f x w s) = Ok y -> R x y) ->
  fst (mapM f xs w s) = Ok ys -> Forall2 R xs ys.
Proof.
  intros Hro HR. revert ys. induction xs as [|x xs IH]; intros ys; cbn [mapM].
  - intros [= <-]. constructor.
  - unfold bind. destruct (Hro x w s) as [Hs _]. specialize (HR x).
    destruct (f x w s) as [[y| |] s1]; cbn [fst snd] in *; try discriminate. subst s1.
    destruct (mapM_reads_only f xs Hro w s) as [Hs' _].
    destruct (mapM f xs w s) as [[ys'| |] s2]; cbn [fst snd] in *; try discriminate.
    intros [= <-]. constructor; [now apply HR | now apply IH].
Qed.

Lemma proxy_items_ok data w s v :
  fst (ApiService.proxy_items data w s) = Ok v -> page_relayed (apiUrl s) data v.
Proof.
  unfold ApiService.proxy_items, page_relayed.
  destruct (truthy data && truthy (field data "items")) eqn:Ht.
  - intros H. right. apply andb_prop in Ht as [_ Hi].
    destruct data as [| | | | | |props]; try discriminate. cbn [field] in *.
    revert H. unfold bind, lift.
    destruct (lookup "items" props) as [| | | | |items|] eqn:Hl; try discriminate.
    cbn [as_array].
    destruct (mapM_reads_only ApiService.proxy_audio items proxy_audio_reads_only w s)
      as [Hs _].
    destruct (mapM ApiService.proxy_audio items w s) as [[items'| |] s1] eqn:Hm;
      cbn [fst snd] in *; try discriminate.
    intros [= <-]. exists props, items, items'.
    split; [reflexivity|]. split; [exact Hl|]. split; [reflexivity|].
    eapply mapM_Forall2; [exact proxy_audio_reads_only | | rewrite Hm; reflexivity].
    intros x y. apply proxy_audio_ok.
  - intros [= <-]. left. split; reflexivity.
Qed.

Lemma fetchWithCorsHandling_settle_ok p w s data :
  fst (fetchWithCorsHandling_settle p w s) = Ok data ->
  exists r, net w (sent_at p) (sent p) = Responded r /\ ok r = true /\
            resp_json r = inr data.
Proof.
  destruct s as [fb ld ls tr], p as [n req]. exec_monad.
  repeat exec_step; intros H; try discriminate H.
  injection H as <-.
  match goal with
  | Hok : negb (ok ?r) = false |- _ =>
      exists r; repeat split; [destruct (ok r); [reflexivity | discriminate] | assumption]
  end.
Qed.

Lemma getContributions_try_ok p w s v :
  fst (ApiService.getContributions_try p w s) = Ok v ->
  exists data r,
    net w (sent_at p) (sent p) = Responded r /\ ok r = true /\ resp_json r = inr data /\
    page_relayed (apiUrl s) data v.
Proof.
  unfold ApiService.getContributions_try, bind.
  destruct (fetchWithCorsHandling_settle_effect p w s) as (t & _ & Hs & _).
  pose proof (fetchWithCorsHandling_settle_ok p w s) as Hok.
  destruct (fetchWithCorsHandling_settle p w s) as [[data| |] s1];
    cbn [fst snd] in *; try discriminate.
  intros H. destruct (Hok data eq_refl) as (r & Hn & Ho & Hj).
  exists data, r. repeat split; try assumption.
  apply proxy_items_ok in H. subst s1. exact H.
Qed.

(** C9.  Every page [getContributions] returns is a body the server sent
    in a 2xx answer to one of the requests of the call, changed in its
    items only: an item whose audio URL names the blob storage domain has
    that URL replaced by the relay URL under the current base URL, an
    item whose audio URL does not (or that has none) is returned as it
    came, and no other member of any item reads differently. *)
Theorem getContributions_relays_blob_audio :
  forall (page pageSize : option Z) (includeUnapproved : option bool)
         (w : world) (s : state) (v : value),
    fst (ApiService.getContributions page pageSize includeUnapproved w s) = Ok v ->
    exists data r n req,
      In req (requests (since s (snd (ApiService.getContributions
                                        page pageSize includeUnapproved w s)))) /\
      net w n req = Responded r /\ ok r = true /\ resp_json r = inr data /\
      page_relayed
        (apiUrl (snd (ApiService.getContributions page pageSize includeUnapproved w s)))
        data v.
Proof.
  intros page pageSize inc w [fb ld ls tr] v.
  destruct (ApiService.getContributions page pageSize inc w _) as [res s'] eqn:E.
  cbn [fst snd]. revert E.
  unfold ApiService.getContributions, ApiService.getContributions_start. exec_monad.
  cbn [ApiService.getContributions_settle].
  match goal with
  | |- context [ApiService.getContributions_try ?p w ?s0] =>
      destruct (getContributions_try_effect p w s0) as (t & Ht & Hs & Hr);
      pose proof (getContributions_try_ok p w s0) as Hok;
      destruct (ApiService.getContributions_try p w s0) as [[data|e|] s1]
  end; cbn [fst snd usingFallbackUrl loading_active localStorage trace apiUrl sent_at sent]
         in Hs, Hr, Hok; try congruence; subst s1.
  - exec_monad. intros E; injection E as <- <-. intros [= ->].
    destruct (Hok v eq_refl) as (d & r & Hn & Ho & Hj & Hp).
    eexists d, r, _, _. split; [|split; [exact Hn|repeat split; assumption]].
    read_since. destruct Ht as [-> | ->]; left; reflexivity.
  - clear Hok. cbn [usingFallbackUrl].
    destruct (negb fb && includes (message e) "API error") eqn:Hc.
    + destruct fb; [discriminate|].
      unfold ApiService.getContributions_start. exec_monad.
      match goal with
      | |- context [ApiService.getContributions_try ?p w ?s0] =>
          destruct (getContributions_try_effect p w s0) as (t2 & Ht2 & Hs2 & Hr2);
          pose proof (getContributions_try_ok p w s0) as Hok;
          destruct (ApiService.getContributions_try p w s0) as [[data2|e2|] s3]
      end; cbn [fst snd usingFallbackUrl loading_active localStorage trace apiUrl
                sent_at sent] in Hs2, Hr2, Hok; try congruence; subst s3;
        cbn [usingFallbackUrl negb andb]; exec_monad;
        intros E; injection E as <- <-; intros [= ->].
      destruct (Hok v eq_refl) as (d & r & Hn & Ho & Hj & Hp).
      eexists d, r, _, _. split; [|split; [exact Hn|repeat split; assumption]].
      read_since. destruct Ht as [-> | ->]; destruct Ht2 as [-> | ->];
        cbn [requests app In]; right; left; reflexivity.
    + exec_monad. intros E; injection E as <- <-. discriminate.
Qed.

(* ================================================================== *)
(** * The connection test *)
(* ================================================================== *)

Ltac recall_net :=
  repeat match goal with
         | H : net ?w ?n ?r = _ |- context [net ?w ?n' ?r'] =>
             change (net w n' r') with (net w n r); rewrite H
         end.

(** C4, as the code has it.  [testApiConnection] always returns a report.
    A status outside 2xx is kept in the probe's own place, as status and
    "Failed", and the next probes run.  A rejected fetch (or a 2xx body
    that is not JSON) is kept in the probe's own place, as status 500 and
    "Error: " followed by the message, for the AI phrase probe only; at
    any of the first three probes it ends the run: the report is then the
    error message alone and no later request leaves. *)
Theorem testApiConnection_report :
  forall (w : world) (s : state),
    let base := apiUrl s in
    let n := length (trace s) in
    let a1 := net w n (probe_request base "/statistics") in
    let a2 := net w (2 + n) (probe_request base "/contributions?page=1&pageSize=5") in
    let a3 := net w (4 + n) (probe_request base "/sentences/random?count=3") in
    let a4 := net w (6 + n) (probe_request base "/ai/gemini-phrase?difficultyLevel=2") in
    fst (ApiService.testApiConnection w s) = Ok (report_of base a1 a2 a3 a4) /\
    requests (since s (snd (ApiService.testApiConnection w s))) = probes_sent base a1 a2 a3.
Proof.
  intros w [fb ld ls tr]. cbv zeta.
  cbv beta iota delta [apiUrl usingFallbackUrl trace].
  destruct (ApiService.testApiConnection w _) as [res s'] eqn:E.
  cbn [fst snd]. revert E.
  unfold ApiService.testApiConnection. exec_monad.
  repeat (rewrite ?length_snoc; exec_step); intros E; injection E as <- <-.
  all: recall_net.
  all: unfold report_of, probes_sent, probe_of, probe_request.
  all: repeat match goal with
      | H : negb (ok ?r) = _ |- _ =>
          apply (f_equal negb) in H; rewrite negb_involutive in H; cbn [negb] in H
      | H : ok ?r = _ |- _ => rewrite H; clear H
      | H : resp_json ?r = _ |- _ => rewrite H; clear H
      end.
  all: split; [reflexivity | read_since; reflexivity].
Qed.

(* ================================================================== *)
(** * The fallback switch and the loading indicator *)
(* ================================================================== *)

(** Each kind of effect, read for the fallback flag. *)

Lemma same_state_keeps_fallback s :
  usingFallbackUrl s = true -> keeps_fallback s s.
Proof. intros Hs. split; [exact Hs|]. rewrite since_refl. constructor. Qed.

Lemma stays_offline_keeps_fallback s s' :
  usingFallbackUrl s = true -> stays_offline s s' -> keeps_fallback s s'.
Proof.
  intros Hs (Hf & _ & Ht). split; [congruence|].
  rewrite (since_app s []); [constructor | rewrite app_nil_r; exact Ht].
Qed.

Lemma calls_under_loading_keeps_fallback s s' :
  usingFallbackUrl s = true -> calls_under_loading s s' -> keeps_fallback s s'.
Proof.
  intros Hs (Hf & _ & _ & evs & Ht & Hg). split; [congruence|].
  rewrite (since_app _ _ _ Ht).
  unfold apiUrl in Hg. rewrite Hs in Hg.
  exact (proj1 (guarded_calls_spec _ _ Hg)).
Qed.

Lemma calls_bare_keeps_fallback s s' :
  usingFallbackUrl s = true -> calls_bare s s' -> keeps_fallback s s'.
Proof.
  intros Hs (Hf & _ & _ & evs & Ht & Hc & _). split; [congruence|].
  rewrite (since_app _ _ _ Ht).
  unfold apiUrl in Hc. rewrite Hs in Hc.
  exact (calls_under _ _ Hc).
Qed.

Lemma no_switch_when_on s s' :
  usingFallbackUrl s = true -> switches_to_fallback s s' -> keeps_fallback s s'.
Proof. intros Hs (Hf & _). congruence. Qed.

Create HintDb fallback.
#[local] Hint Resolve same_state_keeps_fallback stays_offline_keeps_fallback
  calls_under_loading_keeps_fallback calls_bare_keeps_fallback
  no_switch_when_on : fallback.

(** C2.  Once [usingFallbackUrl] is on, every operation leaves it on, and
    every request an operation sends goes to a URL under the fixed local
    fallback base URL. *)
Theorem fallback_is_permanent :
  forall (o : operation) (w : world) (s : state),
    usingFallbackUrl s = true ->
    usingFallbackUrl (snd (run o w s)) = true /\
    Forall (fun r => prefix API_BASE_URLS_local (req_url r) = true)
           (requests (since s (snd (run o w s)))).
Proof.
  intros o w s Hs. pose proof (run_effect o w s) as H.
  change (keeps_fallback s (snd (run o w s))).
  destruct o; cbn [effect] in H;
    try (rewrite H); try (destruct H as [H | H]; try rewrite H);
    eauto with fallback.
Qed.

(** Each kind of effect, read for the loading indicator. *)

Lemma same_state_bracketed s : bracketed s s.
Proof.
  unfold bracketed. rewrite since_refl.
  split; [reflexivity | intros K; now elim K].
Qed.

Lemma stays_offline_bracketed s s' : stays_offline s s' -> bracketed s s'.
Proof.
  intros (_ & _ & Ht). unfold bracketed.
  rewrite (since_app s []) by (rewrite app_nil_r; exact Ht).
  split; [reflexivity | intros K; now elim K].
Qed.

Lemma calls_under_loading_bracketed s s' :
  calls_under_loading s s' -> bracketed s s'.
Proof.
  intros (_ & _ & Hl & evs & Ht & Hg). unfold bracketed.
  rewrite (since_app _ _ _ Ht).
  destruct (guarded_calls_spec _ _ Hg) as (_ & Hc & Hh & Hlast).
  split; [exact Hc | intros _; repeat split; assumption].
Qed.

Create HintDb loading.
#[local] Hint Resolve same_state_bracketed stays_offline_bracketed
  calls_under_loading_bracketed : loading.

(** A call that runs on its own, with no other call of the client
    pending, and that does not switch to the fallback base URL: a request
    leaves only while the loading indicator is on and the indicator goes
    off only when no fetch is pending.  The indicator is one CSS class
    without a counter, so this says nothing of two calls that overlap. *)
Lemma loading_covers_a_call_on_its_own :
  forall (o : operation) (w : world) (s : state),
    (o <> TestApiConnection ->
     usingFallbackUrl (snd (run o w s)) = usingFallbackUrl s ->
     loading_covers false 0 (since s (snd (run o w s))) = true /\
     (requests (since s (snd (run o w s))) <> [] ->
      hd_error (since s (snd (run o w s))) = Some EvShowLoading /\
      last (since s (snd (run o w s))) EvShowLoading = EvHideLoading /\
      loading_active (snd (run o w s)) = false)) /\
    (o = TestApiConnection ->
     requests (since s (snd (run o w s))) <> [] /\
     touches_loading (since s (snd (run o w s))) = false /\
     loading_active (snd (run o w s)) = loading_active s).
Proof.
  intros o w s. pose proof (run_effect o w s) as H. split.
  - intros Ho Hflag. change (bracketed s (snd (run o w s))).
    destruct o; cbn [effect] in H; try congruence;
      try (rewrite H); try (destruct H as [H | H]; try rewrite H);
      eauto with loading.
    destruct H as (Hf & Hf' & _). congruence.
  - intros ->. cbn [effect] in H.
    destruct H as (_ & _ & Hl & evs & Ht & Hc & Hr).
    rewrite (since_app _ _ _ Ht). repeat split; try assumption.
    exact (calls_quiet _ _ Hc).
Qed.

(** ** The loading indicator around each request *)






(* ================================================================== *)
(** * Concrete runs *)
(* ================================================================== *)

(** [getContributions(1, 20, true)] against a primary server that answers
    500: the retry asks the fallback server for approved items only. *)
Lemma getContributions_fallback_retry_witness :
  usingFallbackUrl initial_state = false /\
  (usingFallbackUrl
     (snd (ApiService.getContributions (Some 1) (Some 20) (Some true)
                                       primary_down initial_state)) = true /\
   requests (since initial_state
               (snd (ApiService.getContributions (Some 1) (Some 20) (Some true)
                                                 primary_down initial_state)))
     = [contributions_request API_BASE_URL 1 20 true;
        contributions_request API_BASE_URLS_local 1 20 false]).
Proof.
  split; [reflexivity|].
  apply (proj1 (getContributions_fallback_retry (Some 1) (Some 20) (Some true)
                  primary_down initial_state)
               (mkResponse 500 "" "" (inr VNull)));
    vm_compute; reflexivity.
Defined.

(** An upload the server accepts, answering with the created contribution. *)
Lemma submitContribution_never_returns_witness :
  blob_size recording <> 0 /\
  fst (ApiService.submitContribution "Bonjou" (Some recording) None None None
                                     (serving created_contribution) initial_state)
    = Throw (TypeError "response.text is not a function").
Proof.
  split; [discriminate|].
  apply (proj1 (proj2 (submitContribution_never_returns
                         "Bonjou" (Some recording) None None None
                         (serving created_contribution) initial_state)
                      recording (mkResponse 200 "" "" (inr created_contribution))
                      eq_refl ltac:(discriminate) ltac:(vm_compute; reflexivity))
               created_contribution);
    [reflexivity | reflexivity | split; discriminate].
Defined.

(** The fallback server's page comes back with its blob URL relayed. *)
Lemma getContributions_relays_blob_audio_witness :
  fst (ApiService.getContributions (Some 1) (Some 20) None primary_down initial_state)
    = Ok sample_page_relayed /\
  exists data r n req,
    In req (requests (since initial_state
                        (snd (ApiService.getContributions (Some 1) (Some 20) None
                                                          primary_down initial_state)))) /\
    net primary_down n req = Responded r /\ ok r = true /\ resp_json r = inr data /\
    page_relayed
      (apiUrl (snd (ApiService.getContributions (Some 1) (Some 20) None
                                                primary_down initial_state)))
      data sample_page_relayed.
Proof.
  split; [vm_compute; reflexivity|].
  apply (getContributions_relays_blob_audio (Some 1) (Some 20) None
           primary_down initial_state sample_page_relayed).
  vm_compute; reflexivity.
Defined.

(** A leaderboard row with exactly 1000 contributions: t-shirt, no laptop. *)
Lemma checkPrizeEligibility_thresholds_witness :
  truthy_str (Some "ben@example.org") = true /\
  exists text,
    fst (ApiService.checkPrizeEligibility (Some "ben@example.org")
                                          (serving leaderboard) initial_state)
      = Ok (mkEligibility true text (VNum 1000) false true).
Proof.
  split; [reflexivity|].
  apply (proj1 (proj2 (proj2 (checkPrizeEligibility_thresholds
                                (Some "ben@example.org") (serving leaderboard)
                                initial_state) eq_refl)
                      "ben@example.org" (mkResponse 200 "" "" (inr leaderboard))
                      eq_refl ltac:(vm_compute; reflexivity) eq_refl)
               [VObj [("email", VStr "ana@example.org"); ("contributionCount", VNum 12000)]]
               (VObj [("email", VStr "ben@example.org"); ("contributionCount", VNum 1000)])
               [VObj [("email", VStr "cal@example.org"); ("contributionCount", VNum 999)]]
               1000);
    try reflexivity.
  constructor; [|constructor].
  repeat split; discriminate.
Defined.

(** The default filter keeps the one pending contribution of the queue. *)
Lemma moderation_partition_witness :
  Forall is_record moderation_queue /\
  fst (ApiService.getContributionsForModeration None None None
         (serving (VArr moderation_queue)) initial_state)
    = Ok (mkModerationPage
            [VObj [("id", VNum 3); ("isApproved", VBool false);
                   ("rejectionReason", VNull)]]
            1 10 "pending").
Proof.
  assert (H : Forall is_record moderation_queue)
    by (repeat constructor; discriminate).
  split; [exact H|].
  exact (proj1 (moderation_partition None None None (serving (VArr moderation_queue))
                  initial_state (mkResponse 200 "" "" (inr (VArr moderation_queue)))
                  moderation_queue eq_refl eq_refl eq_refl H)).
Defined.

(** With the fallback switched on, fetching a contribution asks the local
    server. *)
Lemma fallback_is_permanent_witness :
  usingFallbackUrl (set_usingFallbackUrl true initial_state) = true /\
  usingFallbackUrl
    (snd (run (GetContributionById 5) (serving created_contribution)
              (set_usingFallbackUrl true initial_state))) = true /\
  Forall (fun r => prefix API_BASE_URLS_local (req_url r) = true)
         (requests (since (set_usingFallbackUrl true initial_state)
                      (snd (run (GetContributionById 5) (serving created_contribution)
                                (set_usingFallbackUrl true initial_state))))).
Proof.
  split; [reflexivity|].
  apply (fallback_is_permanent (GetContributionById 5) (serving created_contribution)
           (set_usingFallbackUrl true initial_state)).
  reflexivity.
Defined.

(** Fetching the statistics brackets its one request with the indicator. *)
Lemma loading_covers_getStatistics :
  GetStatistics <> TestApiConnection /\
  loading_covers false 0
    (since initial_state (snd (run GetStatistics (serving (VObj [])) initial_state)))
    = true.
Proof.
  split; [discriminate|].
  apply (proj1 (loading_covers_a_call_on_its_own GetStatistics (serving (VObj []))
                  initial_state));
    [discriminate | reflexivity].
Defined.


(** The fallback retry itself: the nested request is still pending when
    the outer call hides the indicator. *)
Example getContributions_retry_uncovered :
  loading_covers false 0
    (since initial_state
       (snd (ApiService.getContributions (Some 1) (Some 20) (Some true)
                                         primary_down initial_state)))
    = false.
Proof. vm_compute. reflexivity. Qed.

(** C4, as stated, fails: the fetch of the first probe is rejected, and
    the report holds neither a field for that probe nor anything of the
    other three, which never ran. *)
Lemma testApiConnection_aborts_on_rejection :
  fst (ApiService.testApiConnection statistics_unreachable initial_state)
    = Ok (ErrorReport "Failed to fetch") /\
  requests (since initial_state
              (snd (ApiService.testApiConnection statistics_unreachable initial_state)))
    = [probe_request API_BASE_URL "/statistics"].
Proof. vm_compute. split; reflexivity. Qed.


(** [moderateContribution(7, false, null)] against a server that would
    accept anything. *)
Lemma moderateContribution_requires_reason_witness :
  truthy_str None = false /\
  fst (ApiService.moderateContribution 7 false None (serving (VObj [])) initial_state)
    = Throw rejection_required /\
  requests (since initial_state
              (snd (ApiService.moderateContribution 7 false None (serving (VObj []))
                                                    initial_state)))
    = [].
Proof.
  split; [reflexivity|].
  exact (proj1 (moderateContribution_requires_reason 7 None (serving (VObj []))
                  initial_state) eq_refl).
Defined.

(* ================================================================== *)
(** * Further properties: requests and their failures *)
(* ================================================================== *)

(** X1.  A recording that is absent or has size 0 is refused before
    anything is sent: the call fails with the "Invalid audio recording"
    error, and all it leaves behind is the loading indicator shown and
    hidden again. *)
Theorem submitContribution_rejects_empty_audio :
  forall (text : string) (audioBlob : option Blob) (email gender region : option string)
         (w : world) (s : state),
    no_audio audioBlob ->
    ApiService.submitContribution text audioBlob email gender region w s
      = (Throw invalid_audio,
         mkState (usingFallbackUrl s) false (localStorage s)
                 (trace s ++ [EvShowLoading; EvHideLoading])).
Proof.
  intros text audioBlob email gender region w [fb ld ls tr] [-> | (b & -> & Hb)];
    unfold ApiService.submitContribution; exec_monad; rewrite ?Hb; cbn [Z.eqb];
    exec_monad; rewrite <- app_assoc; reflexivity.
Qed.

Lemma submitContribution_rejects_empty_audio_witness :
  no_audio (Some (mkBlob 0 (Some "audio/wav"))) /\
  requests (since initial_state
              (snd (ApiService.submitContribution "Bonjou" (Some (mkBlob 0 (Some "audio/wav")))
                      None None None (serving (VObj [])) initial_state))) = [].
Proof.
  assert (H : no_audio (Some (mkBlob 0 (Some "audio/wav"))))
    by (right; eexists; split; reflexivity).
  split; [exact H|].
  rewrite (submitContribution_rejects_empty_audio "Bonjou" _ None None None
             (serving (VObj [])) initial_state H).
  reflexivity.
Defined.

(** X2.  [fetchWithCorsHandling] sends one request, the caller's with the
    CORS settings applied.  A 2xx answer gives its parsed body, or the
    parse error when the body is not JSON; any other status becomes the
    error "API error: <status>", whose message contains "API error"; a
    rejected fetch reaches the caller unchanged. *)
Theorem fetchWithCorsHandling_outcome :
  forall (url : string) (o : options) (w : world) (s : state),
    requests (since s (snd (fetchWithCorsHandling url o w s)))
      = [mkRequest false url (corsOptions o)] /\
    (forall r,
        net w (length (trace s)) (mkRequest false url (corsOptions o)) = Responded r ->
        (ok r = false ->
         fst (fetchWithCorsHandling url o w s)
           = Throw (Error ("API error: " ++ show_Z (status r))) /\
         includes ("API error: " ++ show_Z (status r)) "API error" = true) /\
        (forall v, ok r = true -> resp_json r = inr v ->
                   fst (fetchWithCorsHandling url o w s) = Ok v) /\
        (forall msg, ok r = true -> resp_json r = inl msg ->
                     fst (fetchWithCorsHandling url o w s) = Throw (SyntaxError msg))) /\
    (forall e,
        net w (length (trace s)) (mkRequest false url (corsOptions o)) = Rejected e ->
        fst (fetchWithCorsHandling url o w s) = Throw e).
Proof.
  intros url o w [fb ld ls tr]. cbn [trace]. split; [|split].
  - exec_monad. repeat exec_step; read_since; reflexivity.
  - intros r Hnet. split; [|split].
    + intros Hok. split; [|exact (includes_prefix "API error" _)].
      exec_monad. rewrite Hnet. exec_monad. rewrite Hok. cbn [negb]. exec_monad.
      repeat exec_step; reflexivity.
    + intros v Hok Hj. exec_monad. rewrite Hnet. exec_monad. rewrite Hok. cbn [negb].
      exec_monad. rewrite Hj. reflexivity.
    + intros msg Hok Hj. exec_monad. rewrite Hnet. exec_monad. rewrite Hok. cbn [negb].
      exec_monad. rewrite Hj. exec_monad. repeat exec_step; reflexivity.
  - intros e Hnet. exec_monad. rewrite Hnet. exec_monad. repeat exec_step; reflexivity.
Qed.

(** X3.  [fetchWithCorsHandling] shows the CORS toast exactly when the
    page has a toast container and the call fails with an error whose
    message says "has been blocked by CORS policy". *)
Theorem cors_toast_shown_iff :
  forall (url : string) (o : options) (w : world) (s : state),
    In EvToast (since s (snd (fetchWithCorsHandling url o w s))) <->
    toast_container w = true /\
    exists e, fst (fetchWithCorsHandling url o w s) = Throw e /\
              includes (message e) cors_marker = true.
Proof.
  intros url o w [fb ld ls tr]. exec_monad.
  repeat exec_step; read_since;
    (split;
     [ intros Hin; cbn [In] in Hin; intuition (try discriminate);
       try (eexists; split; [reflexivity | assumption])
     | intros (Hc & e1 & He & Hi);
       first [ discriminate He
             | discriminate Hc
             | congruence
             | solve [cbn [In]; auto] ] ]).
Qed.


(* ================================================================== *)
(** * Further properties: the fallback *)
(* ================================================================== *)

(** X4.  A fetch that is rejected at transport level with a message that
    does not contain "API error" (a server that cannot be reached) does
    not trigger the fallback: the error reaches the caller, the flag
    stays off and one request was sent. *)
Theorem getContributions_keeps_primary_on_transport_failure :
  forall (page pageSize : option Z) (includeUnapproved : option bool)
         (w : world) (s : state) (e : error),
    usingFallbackUrl s = false ->
    net w (S (length (trace s)))
        (contributions_request API_BASE_URL (dflt 1 page) (dflt 20 pageSize)
                               (dflt false includeUnapproved)) = Rejected e ->
    includes (message e) "API error" = false ->
    fst (ApiService.getContributions page pageSize includeUnapproved w s) = Throw e /\
    usingFallbackUrl (snd (ApiService.getContributions page pageSize includeUnapproved w s))
      = false /\
    requests (since s (snd (ApiService.getContributions page pageSize
                                                         includeUnapproved w s)))
      = [contributions_request API_BASE_URL (dflt 1 page) (dflt 20 pageSize)
                               (dflt false includeUnapproved)].
Proof.
  intros page pageSize inc w [fb ld ls tr] e Hfb Hnet He. cbn [usingFallbackUrl trace] in *.
  subst fb.
  destruct (ApiService.getContributions page pageSize inc w _) as [res s'] eqn:E.
  cbn [fst snd]. revert E.
  unfold ApiService.getContributions, ApiService.getContributions_start. exec_monad.
  cbn [ApiService.getContributions_settle].
  unfold ApiService.getContributions_try. exec_monad.
  unfold contributions_request in Hnet. use_net Hnet.
  destruct (includes (message e) cors_marker); [destruct (toast_container w)|];
    exec_monad; rewrite He; cbn [negb andb]; exec_monad;
    intros E; injection E as <- <-; (split; [reflexivity|]); (split; [reflexivity|]);
    read_since; reflexivity.
Qed.

Lemma getContributions_keeps_primary_on_transport_failure_witness :
  includes "Failed to fetch" "API error" = false /\
  fst (ApiService.getContributions None None None unreachable initial_state)
    = Throw (TypeError "Failed to fetch") /\
  usingFallbackUrl (snd (ApiService.getContributions None None None unreachable
                                                     initial_state)) = false.
Proof.
  split; [reflexivity|].
  pose proof (getContributions_keeps_primary_on_transport_failure None None None
                unreachable initial_state (TypeError "Failed to fetch")
                eq_refl eq_refl eq_refl) as (H1 & H2 & _).
  split; assumption.
Defined.

(** X5.  When the primary server answers outside 2xx and the fallback
    server cannot be reached either, the caller gets the error of the
    fallback attempt, not the "API error" of the first one, and the
    client stays switched to the fallback. *)
Theorem getContributions_retry_failure_propagates :
  forall (page pageSize : option Z) (includeUnapproved : option bool)
         (w : world) (s : state) (r : response) (e : error),
    usingFallbackUrl s = false ->
    net w (S (length (trace s)))
        (contributions_request API_BASE_URL (dflt 1 page) (dflt 20 pageSize)
                               (dflt false includeUnapproved)) = Responded r ->
    ok r = false ->
    (forall n, net w n (contributions_request API_BASE_URLS_local (dflt 1 page)
                                              (dflt 20 pageSize) false) = Rejected e) ->
    fst (ApiService.getContributions page pageSize includeUnapproved w s) = Throw e /\
    usingFallbackUrl (snd (ApiService.getContributions page pageSize includeUnapproved w s))
      = true.
Proof.
  intros page pageSize inc w [fb ld ls tr] r e Hfb Hnet Hok Hlocal.
  cbn [usingFallbackUrl trace] in *. subst fb.
  destruct (ApiService.getContributions page pageSize inc w _) as [res s'] eqn:E.
  cbn [fst snd]. revert E.
  unfold ApiService.getContributions, ApiService.getContributions_start. exec_monad.
  cbn [ApiService.getContributions_settle].
  unfold ApiService.getContributions_try. exec_monad.
  unfold contributions_request in Hnet, Hlocal. use_net Hnet. rewrite Hok. cbn [negb].
  exec_monad. cbn [message Error].
  destruct (includes ("API error: " ++ show_Z (status r)) cors_marker);
    [destruct (toast_container w)|]; exec_monad; cbn [message Error];
    change ("API error: " ++ show_Z (status r))
      with ("API error" ++ ": " ++ show_Z (status r));
    rewrite includes_prefix; cbn [negb andb];
    unfold ApiService.getContributions_start; exec_monad;
    change (base_url true) with API_BASE_URLS_local;
    match goal with
    | |- context [net w ?n ?q] =>
        change (net w n q)
          with (net w n (mkRequest false
                           (ApiService.contributions_url API_BASE_URLS_local
                              (dflt 1 page) (dflt 20 pageSize) false)
                           (corsOptions no_options)));
        rewrite (Hlocal n)
    end; exec_monad;
    (destruct (includes (message e) cors_marker); [destruct (toast_container w)|]);
    exec_monad; intros E; injection E as <- <-; split; reflexivity.
Qed.

Lemma getContributions_retry_failure_propagates_witness :
  usingFallbackUrl initial_state = false /\
  fst (ApiService.getContributions None None None fallback_down initial_state)
    = Throw (TypeError "Failed to fetch") /\
  usingFallbackUrl (snd (ApiService.getContributions None None None fallback_down
                                                     initial_state)) = true.
Proof.
  split; [reflexivity|].
  apply (getContributions_retry_failure_propagates None None None fallback_down
           initial_state (mkResponse 503 "" "" (inr VNull)) (TypeError "Failed to fetch"));
    vm_compute; reflexivity.
Defined.
(** X6.  Whatever the servers do, [getContributions] sends one request
    when it does not switch to the fallback and two when it does; it
    never sends a third. *)
Theorem getContributions_sends_one_or_two :
  forall (page pageSize : option Z) (includeUnapproved : option bool)
         (w : world) (s : state),
    (usingFallbackUrl (snd (ApiService.getContributions page pageSize
                                                        includeUnapproved w s))
       = usingFallbackUrl s /\
     length (requests (since s (snd (ApiService.getContributions
                                       page pageSize includeUnapproved w s)))) = 1%nat)
    \/
    (usingFallbackUrl s = false /\
     usingFallbackUrl (snd (ApiService.getContributions page pageSize
                                                        includeUnapproved w s)) = true /\
     length (requests (since s (snd (ApiService.getContributions
                                       page pageSize includeUnapproved w s)))) = 2%nat).
Proof.
  intros page pageSize inc w [fb ld ls tr].
  destruct (ApiService.getContributions page pageSize inc w _) as [res s'] eqn:E.
  cbn [fst snd]. revert E.
  unfold ApiService.getContributions, ApiService.getContributions_start. exec_monad.
  cbn [ApiService.getContributions_settle].
  match goal with
  | |- context [ApiService.getContributions_try ?p w ?s0] =>
      destruct (getContributions_try_effect p w s0) as (t & Ht & Hs & Hr);
      destruct (ApiService.getContributions_try p w s0) as [[data|e|] s1]
  end; cbn [fst snd usingFallbackUrl loading_active localStorage trace] in Hs, Hr;
    try congruence; subst s1; cbn [usingFallbackUrl].
  - exec_monad. intros E; injection E as <- <-. left. split; [reflexivity|].
    read_since. destruct Ht as [-> | ->]; reflexivity.
  - destruct (negb fb && includes (message e) "API error") eqn:Hc.
    + destruct fb; [discriminate|].
      unfold ApiService.getContributions_start. exec_monad.
      match goal with
      | |- context [ApiService.getContributions_try ?p w ?s0] =>
          destruct (getContributions_try_effect p w s0) as (t2 & Ht2 & Hs2 & Hr2);
          destruct (ApiService.getContributions_try p w s0) as [[data2|e2|] s3]
      end; cbn [fst snd usingFallbackUrl loading_active localStorage trace] in Hs2, Hr2;
        try congruence; subst s3; cbn [usingFallbackUrl negb andb]; exec_monad;
        intros E; injection E as <- <-; right; (split; [reflexivity|]);
        (split; [reflexivity|]); read_since;
        destruct Ht as [-> | ->]; destruct Ht2 as [-> | ->]; reflexivity.
    + exec_monad. intros E; injection E as <- <-. left. split; [reflexivity|].
      read_since. destruct Ht as [-> | ->]; reflexivity.
Qed.

(** X7.  No operation other than [getContributions] changes
    [usingFallbackUrl]: the others stay on the base URL they started
    with, also when they fail with an "API error". *)
Theorem fallback_switch_only_in_getContributions :
  forall (o : operation) (w : world) (s : state),
    is_getContributions o = false ->
    usingFallbackUrl (snd (run o w s)) = usingFallbackUrl s.
Proof.
  intros o w s Ho. pose proof (run_effect o w s) as H.
  destruct o; try discriminate Ho; cbn [effect] in H;
    try (rewrite H; reflexivity);
    try (destruct H as [H | H]; [rewrite H; reflexivity|]);
    exact (proj1 H).
Qed.

Lemma fallback_switch_only_in_getContributions_witness :
  is_getContributions (GetTopContributors (Some 10)) = false /\
  fst (run (GetTopContributors (Some 10)) (http_failure 502) initial_state)
    = Throw (Error "API error: 502 Bad Gateway") /\
  usingFallbackUrl (snd (run (GetTopContributors (Some 10)) (http_failure 502) initial_state))
    = false.
Proof.
  split; [reflexivity|]. split; [vm_compute; reflexivity|].
  exact (fallback_switch_only_in_getContributions (GetTopContributors (Some 10))
           (http_failure 502) initial_state eq_refl).
Defined.


(* ================================================================== *)
(** * Further properties: local storage *)
(* ================================================================== *)

Section Blind.
Context {A B : Type}.

Lemma blind_ret (a : A) : storage_blind (ret a).
Proof. intros w s ls. reflexivity. Qed.

Lemma blind_throw (e : error) : storage_blind (@throw A e).
Proof. intros w s ls. reflexivity. Qed.

Lemma blind_lift (r : outcome A) : storage_blind (lift r).
Proof. intros w s ls. reflexivity. Qed.

Lemma blind_bind (m : M A) (f : A -> M B) :
  storage_blind m -> (forall a, storage_blind (f a)) -> storage_blind (bind m f).
Proof.
  intros Hm Hf w s ls. unfold bind. rewrite Hm.
  destruct (m w s) as [[a| |] s1]; cbn [fst snd]; [apply Hf | reflexivity | reflexivity].
Qed.

Lemma blind_try_catch (m : M A) (h : error -> M A) :
  storage_blind m -> (forall e, storage_blind (h e)) -> storage_blind (try_catch m h).
Proof.
  intros Hm Hh w s ls. unfold try_catch. rewrite Hm.
  destruct (m w s) as [[a| |] s1]; cbn [fst snd]; [reflexivity | apply Hh | reflexivity].
Qed.

Lemma blind_finally (m : M A) (c : M unit) :
  storage_blind m -> storage_blind c -> storage_blind (finally m c).
Proof.
  intros Hm Hc w s ls. unfold finally. rewrite Hm.
  destruct (m w s) as [r s1]; cbn [fst snd]. rewrite Hc.
  destruct (c w s1) as [[[]| |] s2]; reflexivity.
Qed.
End Blind.

Lemma blind_rethrow {A} (e : error) : storage_blind (@rethrow A e).
Proof. apply blind_throw. Qed.

Lemma blind_showLoading : storage_blind showLoading.
Proof. intros w s ls. reflexivity. Qed.

Lemma blind_hideLoading : storage_blind hideLoading.
Proof. intros w s ls. reflexivity. Qed.

Lemma blind_getApiUrl : storage_blind getApiUrl.
Proof. intros w s ls. reflexivity. Qed.

Lemma blind_fetch_start via url o : storage_blind (fetch_start via url o).
Proof. intros w s ls. reflexivity. Qed.

Lemma blind_fetch_await p : storage_blind (fetch_await p).
Proof.
  intros w s ls. unfold fetch_await. destruct (net w (sent_at p) (sent p)); reflexivity.
Qed.

Lemma blind_response_json r : storage_blind (response_json r).
Proof. intros w s ls. unfold response_json. destruct (resp_json r); reflexivity. Qed.

Lemma blind_response_text r : storage_blind (response_text r).
Proof. intros w s ls. reflexivity. Qed.

Lemma blind_show_cors_toast : storage_blind show_cors_toast.
Proof. intros w s ls. unfold show_cors_toast. destruct (toast_container w); reflexivity. Qed.

Lemma blind_stringify v : storage_blind (stringify v).
Proof. intros w s ls. unfold stringify. destruct (to_string v); reflexivity. Qed.

Lemma blind_call_member v recv name : storage_blind (call_member v recv name).
Proof. intros w s ls. reflexivity. Qed.

Create HintDb blind.
#[local] Hint Resolve blind_ret blind_throw blind_lift blind_rethrow blind_showLoading
  blind_hideLoading blind_getApiUrl blind_fetch_start blind_fetch_await
  blind_response_json blind_response_text blind_show_cors_toast blind_stringify
  blind_call_member : blind.

Ltac blind :=
  repeat first
    [ progress auto with blind
    | solve [intros ? ? ?; reflexivity]
    | apply blind_bind; [|intros ?]
    | apply blind_try_catch; [|intros ?]
    | apply blind_finally
    | match goal with
      | |- storage_blind (if ?b then _ else _) => destruct b
      | |- storage_blind (match ?x with _ => _ end) => destruct x
      end ].

Lemma blind_fetch url o : storage_blind (fetch url o).
Proof. unfold fetch. blind. Qed.

Lemma blind_corsProxy_fetch url o : storage_blind (corsProxy_fetch url o).
Proof. unfold corsProxy_fetch. blind. Qed.

Lemma blind_fetchWithCorsHandling_settle p : storage_blind (fetchWithCorsHandling_settle p).
Proof. unfold fetchWithCorsHandling_settle. blind. Qed.

Lemma blind_fetchWithCorsHandling url o : storage_blind (fetchWithCorsHandling url o).
Proof.
  unfold fetchWithCorsHandling, fetchWithCorsHandling_start.
  pose proof blind_fetchWithCorsHandling_settle. blind.
Qed.

#[local] Hint Resolve blind_fetch blind_corsProxy_fetch blind_fetchWithCorsHandling_settle
  blind_fetchWithCorsHandling : blind.

Lemma blind_getProxiedUrl url : storage_blind (getProxiedUrl url).
Proof. unfold getProxiedUrl. blind. Qed.

#[local] Hint Resolve blind_getProxiedUrl : blind.

Lemma blind_mapM {A B} (f : A -> M B) xs :
  (forall x, storage_blind (f x)) -> storage_blind (mapM f xs).
Proof. intros Hf. induction xs as [|x xs IH]; cbn [mapM]; blind. Qed.

Lemma blind_proxy_audio c : storage_blind (ApiService.proxy_audio c).
Proof. unfold ApiService.proxy_audio. blind. Qed.

Lemma blind_proxy_items data : storage_blind (ApiService.proxy_items data).
Proof.
  unfold ApiService.proxy_items. pose proof blind_proxy_audio.
  pose proof (@blind_mapM value value). blind.
Qed.

#[local] Hint Resolve blind_proxy_items : blind.

Lemma blind_getContributions_start page pageSize inc :
  storage_blind (ApiService.getContributions_start page pageSize inc).
Proof.
  unfold ApiService.getContributions_start, fetchWithCorsHandling_start. cbv zeta. blind.
Qed.

Lemma blind_getContributions_try p : storage_blind (ApiService.getContributions_try p).
Proof. unfold ApiService.getContributions_try. blind. Qed.

Lemma blind_getContributions_settle depth page pageSize p :
  storage_blind (ApiService.getContributions_settle depth page pageSize p).
Proof.
  revert p. induction depth as [|depth IH]; intros p w s ls;
    cbn [ApiService.getContributions_settle];
    rewrite blind_getContributions_try;
    destruct (ApiService.getContributions_try p w s) as [[data|e|] s1];
    cbn [fst snd]; try reflexivity;
    destruct s1 as [fb ld st tr]; cbn [usingFallbackUrl set_localStorage];
    destruct (negb fb && includes (message e) "API error"); try reflexivity.
  assert (H : storage_blind
                (p' <- finally (ApiService.getContributions_start (Some page)
                                  (Some pageSize) None) hideLoading ;;
                 ApiService.getContributions_settle depth page pageSize p')).
  { pose proof blind_getContributions_start. blind. }
  exact (H w (set_usingFallbackUrl true (mkState fb ld st tr)) ls).
Qed.

Lemma blind_getContributions page pageSize inc :
  storage_blind (ApiService.getContributions page pageSize inc).
Proof.
  unfold ApiService.getContributions.
  pose proof blind_getContributions_start. pose proof blind_getContributions_settle.
  blind.
Qed.

Lemma blind_getTopContributors limit : storage_blind (ApiService.getTopContributors limit).
Proof. unfold ApiService.getTopContributors. cbv zeta. blind. Qed.

Lemma blind_keeps_storage {A} (m : M A) : storage_blind m -> storage_free m.
Proof.
  intros H. split; [exact H|]. intros w s.
  specialize (H w s (localStorage s)).
  replace (set_localStorage (localStorage s) s) with s in H by (destruct s; reflexivity).
  apply (f_equal snd) in H. cbn [snd] in H. rewrite H at 1. reflexivity.
Qed.

(** X8.  What local storage holds ("palefo-api-url", the admin flag) is
    never read by an operation that talks to the server, and never
    written by one: called with any arguments and started with another
    storage, each of them returns the same value or throws the same
    error, sends the same requests, leaves the same flags, and hands the
    storage back unchanged. *)
Theorem stored_settings_are_never_read :
  storage_free ApiService.getApiUrl /\
  (forall count excludeIds,
      storage_free (ApiService.getRandomSentences count excludeIds)) /\
  (forall category count,
      storage_free (ApiService.getSentencesByCategory category count)) /\
  (forall category count,
      storage_free (ApiService.getSentencesByCategorySimple category count)) /\
  (forall level count,
      storage_free (ApiService.getSentencesByDifficulty level count)) /\
  storage_free ApiService.getStatistics /\
  (forall limit, storage_free (ApiService.getTopContributors limit)) /\
  (forall text audioBlob email gender region,
      storage_free (ApiService.submitContribution text audioBlob email gender region)) /\
  (forall page pageSize includeUnapproved,
      storage_free (ApiService.getContributions page pageSize includeUnapproved)) /\
  (forall id, storage_free (ApiService.getContributionById id)) /\
  (forall email, storage_free (ApiService.checkPrizeEligibility email)) /\
  storage_free ApiService.testApiConnection /\
  (forall page pageSize filter,
      storage_free (ApiService.getContributionsForModeration page pageSize filter)) /\
  (forall id approved rejectionReason,
      storage_free (ApiService.moderateContribution id approved rejectionReason)) /\
  (forall options, storage_free (ApiService.getAIGeneratedPhrase options)) /\
  (forall options, storage_free (ApiService.getGeminiPhrase options)).
Proof.
  pose proof blind_getTopContributors. pose proof blind_getContributions.
  repeat match goal with |- _ /\ _ => split end; intros; apply blind_keeps_storage.
  - apply blind_getApiUrl.
  - unfold ApiService.getRandomSentences. cbv zeta. blind.
  - unfold ApiService.getSentencesByCategory. cbv zeta. blind.
  - unfold ApiService.getSentencesByCategorySimple. cbv zeta. blind.
  - unfold ApiService.getSentencesByDifficulty. cbv zeta. blind.
  - unfold ApiService.getStatistics. cbv zeta. blind.
    intros w' s' ls'. destruct (corsProxy_isEnabled w');
      apply blind_fetch || apply blind_corsProxy_fetch.
  - auto.
  - unfold ApiService.submitContribution. cbv zeta. blind.
  - auto.
  - unfold ApiService.getContributionById. blind.
  - unfold ApiService.checkPrizeEligibility, ApiService.value_ge,
      ApiService.value_rsub. blind.
  - unfold ApiService.testApiConnection, ApiService.probe_payload. cbv zeta. blind.
  - unfold ApiService.getContributionsForModeration. cbv zeta. blind.
  - unfold ApiService.moderateContribution. blind.
  - unfold ApiService.getAIGeneratedPhrase. cbv zeta. blind.
  - unfold ApiService.getGeminiPhrase. cbv zeta. blind.
Qed.

(** Moderating a contribution returns the same contribution with and
    without the admin flag in storage, and leaves the flag where it was. *)
Lemma stored_settings_are_never_read_witness :
  ApiService.moderateContribution 7 true None (serving created_contribution)
    (set_localStorage [("adminAuthenticated", "true")] initial_state)
  = (Ok created_contribution,
     set_localStorage [("adminAuthenticated", "true")]
       (snd (ApiService.moderateContribution 7 true None
               (serving created_contribution) initial_state))) /\
  fst (ApiService.moderateContribution 7 true None
         (serving created_contribution) initial_state)
  = Ok created_contribution.
Proof.
  destruct stored_settings_are_never_read
    as (_ & _ & _ & _ & _ & _ & _ & _ & _ & _ & _ & _ & _ & H & _).
  destruct (H 7 true None) as [Hb _].
  rewrite (Hb (serving created_contribution) initial_state
              [("adminAuthenticated", "true")]).
  split; [apply f_equal2|]; reflexivity.
Defined.

Lemma storage_get_remove_same k ls : storage_get k (storage_remove k ls) = None.
Proof.
  induction ls as [|[k' v] ls IH]; cbn [storage_remove storage_get]; [reflexivity|].
  destruct (String.eqb_spec k' k) as [->|Hk]; [exact IH|].
  cbn [storage_get]. destruct (String.eqb_spec k' k); [congruence | exact IH].
Qed.

Lemma storage_get_remove_other k k' ls :
  k' <> k -> storage_get k' (storage_remove k ls) = storage_get k' ls.
Proof.
  intros Hk. induction ls as [|[k0 v] ls IH]; cbn [storage_remove storage_get];
    [reflexivity|].
  destruct (String.eqb_spec k0 k) as [->|Hk0].
  - destruct (String.eqb_spec k k'); [congruence | exact IH].
  - cbn [storage_get]. destruct (String.eqb_spec k0 k'); [reflexivity | exact IH].
Qed.

(** X10.  The fixed credentials open a session: [authenticateAdmin]
    answers true and [isAdminAuthenticated] is true afterwards.  Any other
    pair answers false and changes nothing, so a session that was open
    stays open. *)
Theorem authenticateAdmin_session :
  forall (username password : string) (w : world) (s : state),
    (username = "admin" /\ password = "palefo2023" ->
     fst (ApiService.authenticateAdmin username password w s) = Ok true /\
     fst (ApiService.isAdminAuthenticated
            w (snd (ApiService.authenticateAdmin username password w s))) = Ok true) /\
    (~ (username = "admin" /\ password = "palefo2023") ->
     ApiService.authenticateAdmin username password w s = (Ok false, s)).
Proof.
  intros u p w [fb ld ls tr]. unfold ApiService.authenticateAdmin. split.
  - intros [-> ->]. cbn [String.eqb Ascii.eqb Bool.eqb andb]. split; reflexivity.
  - intros H. destruct (String.eqb_spec u "admin"); destruct (String.eqb_spec p "palefo2023");
      cbn [andb]; try reflexivity. elim H. split; assumption.
Qed.

Lemma authenticateAdmin_session_witness :
  ("admin" = "admin" /\ "palefo2023" = "palefo2023") /\
  fst (ApiService.isAdminAuthenticated
         unreachable
         (snd (ApiService.authenticateAdmin "admin" "palefo2023" unreachable initial_state)))
    = Ok true.
Proof.
  split; [split; reflexivity|].
  exact (proj2 (proj1 (authenticateAdmin_session "admin" "palefo2023" unreachable
                         initial_state) (conj eq_refl eq_refl))).
Defined.

(** X11.  After [logoutAdmin], [isAdminAuthenticated] is false, whatever
    the storage held; every other stored key reads as before, and
    neither the flags nor the trace change. *)
Theorem logoutAdmin_ends_session :
  forall (w : world) (s : state),
    fst (ApiService.logoutAdmin w s) = Ok tt /\
    fst (ApiService.isAdminAuthenticated w (snd (ApiService.logoutAdmin w s))) = Ok false /\
    (forall k, k <> "adminAuthenticated" ->
       storage_get k (localStorage (snd (ApiService.logoutAdmin w s)))
         = storage_get k (localStorage s)) /\
    stays_offline s (snd (ApiService.logoutAdmin w s)).
Proof.
  intros w [fb ld ls tr]. unfold ApiService.logoutAdmin, ApiService.isAdminAuthenticated.
  exec_monad. rewrite storage_get_remove_same.
  repeat split. intros k Hk. now apply storage_get_remove_other.
Qed.

(** X9.  [setApiUrl] never changes the base URL the client uses.  For a
    URL with something other than white space in it, it answers true and
    stores the trimmed URL under "palefo-api-url"; for an absent, empty or
    blank URL it answers false and changes nothing.  The admin flag is
    never touched. *)
Theorem setApiUrl_does_not_move_the_base :
  forall (url : option string) (w : world) (s : state),
    apiUrl (snd (ApiService.setApiUrl url w s)) = apiUrl s /\
    (fst (ApiService.setApiUrl url w s) = Ok true /\
     storage_get "palefo-api-url" (localStorage (snd (ApiService.setApiUrl url w s)))
       = Some (trim (dflt "" url)) /\
     trim (dflt "" url) <> ""
     \/
     ApiService.setApiUrl url w s = (Ok false, s) /\ trim (dflt "" url) = "") /\
    storage_get "adminAuthenticated" (localStorage (snd (ApiService.setApiUrl url w s)))
      = storage_get "adminAuthenticated" (localStorage s).
Proof.
  intros url w [fb ld ls tr]. unfold ApiService.setApiUrl.
  destruct url as [u|]; cbn [truthy_str dflt].
  - destruct (String.eqb_spec u "") as [->|Hu]; cbn [negb andb].
    + repeat split. right. split; reflexivity.
    + destruct (String.eqb_spec (trim u) "") as [Ht|Ht]; cbn [negb].
      * repeat split. right. split; [reflexivity | exact Ht].
      * exec_monad. cbn [storage_get]. rewrite String.eqb_refl.
        split; [reflexivity|]. split.
        -- left. repeat split. exact Ht.
        -- cbn [String.eqb Ascii.eqb Bool.eqb].
           apply storage_get_remove_other. discriminate.
  - repeat split. right. split; reflexivity.
Qed.

(** A URL made of a no-break space is blank: nothing is stored.  A URL
    with white space of any kind around it is stored without it. *)
Lemma setApiUrl_does_not_move_the_base_witness :
  ApiService.setApiUrl (Some no_break_space) (serving (VObj [])) initial_state
    = (Ok false, initial_state) /\
  storage_get "palefo-api-url"
    (localStorage
       (snd (ApiService.setApiUrl
               (Some (byte_order_mark ++ " http://localhost:5000/api"
                        ++ no_break_space ++ String "010"%char ""))
               (serving (VObj [])) initial_state)))
    = Some "http://localhost:5000/api".
Proof.
  split.
  - destruct (setApiUrl_does_not_move_the_base (Some no_break_space)
                (serving (VObj [])) initial_state) as (_ & [(H & _) | (H & _)] & _);
      [vm_compute in H; discriminate | exact H].
  - destruct (setApiUrl_does_not_move_the_base
                (Some (byte_order_mark ++ " http://localhost:5000/api"
                         ++ no_break_space ++ String "010"%char ""))
                (serving (VObj [])) initial_state)
      as (_ & [(_ & H & _) | (H & _)] & _);
      [rewrite H; vm_compute; reflexivity | vm_compute in H; discriminate].
Defined.

(* ================================================================== *)
(** * Further properties: moderation, prizes and phrases *)
(* ================================================================== *)

(** X12.  [getContributionsForModeration] needs the body to be an array:
    for any other 2xx JSON body -- an object with an [items] member, as
    [getContributions] accepts, included -- it fails with a TypeError. *)
Theorem moderation_needs_an_array :
  forall (page pageSize : option Z) (filter : option string) (w : world) (s : state)
         (r : response) (body : value),
    net w (S (length (trace s)))
        (moderation_request (apiUrl s) (dflt 1 page) (dflt 10 pageSize)) = Responded r ->
    ok r = true ->
    resp_json r = inr body ->
    is_array body = false ->
    exists msg,
      fst (ApiService.getContributionsForModeration page pageSize filter w s)
        = Throw (TypeError msg).
Proof.
  intros page pageSize filter w [fb ld ls tr] r body Hnet Hok Hj Hb.
  unfold ApiService.getContributionsForModeration, moderation_request in *.
  cbv beta iota delta [apiUrl usingFallbackUrl trace] in Hnet.
  exec_monad. use_net Hnet. rewrite Hok. cbn [negb]. exec_monad. rewrite Hj.
  destruct body; try discriminate Hb; cbn [as_array]; eexists; reflexivity.
Qed.

Lemma moderation_needs_an_array_witness :
  is_array sample_page = false /\
  exists msg,
    fst (ApiService.getContributionsForModeration None None None (serving sample_page)
                                                  initial_state)
      = Throw (TypeError msg).
Proof.
  split; [reflexivity|].
  exact (moderation_needs_an_array None None None (serving sample_page) initial_state
           (mkResponse 200 "" "" (inr sample_page)) sample_page
           eq_refl eq_refl eq_refl eq_refl).
Defined.

(** X13.  A leaderboard row whose count is missing, null, 0 or empty
    counts as 0: not eligible, with 1000 contributions still to go. *)
Theorem checkPrizeEligibility_missing_count :
  forall (address : string) (w : world) (s : state) (r : response)
         (before : list value) (c : value) (after : list value),
    address <> "" ->
    net w (S (length (trace s))) (top50_request (apiUrl s)) = Responded r ->
    ok r = true ->
    resp_json r = inr (VArr (before ++ c :: after)) ->
    Forall (other_contributor address) before ->
    field c "email" = VStr address ->
    truthy (field c "contributionCount") = false ->
    fst (ApiService.checkPrizeEligibility (Some address) w s)
      = Ok (mkEligibility false
              "You need 1000 more valid contributions to qualify for a t-shirt"
              (VNum 0) false false).
Proof.
  intros address w [fb ld ls tr] r before c after Ha Hnet Hok Hj Hb Hc Hn.
  unfold ApiService.checkPrizeEligibility, top50_request in *.
  cbv beta iota delta [apiUrl usingFallbackUrl trace] in Hnet.
  cbn [truthy_str]. rewrite (proj2 (String.eqb_neq _ _) Ha). cbn [negb].
  unfold try_catch, bind at 1.
  rewrite (getTopContributors_ok (Some 50) _ _ _ _ _ _ _ Hnet Hok Hj).
  exec_monad. cbn [as_array].
  rewrite (findM_first _ before c after).
  2:{ eapply Forall_impl; [|exact Hb]. apply email_is_other. }
  2:{ now apply email_is_match. }
  rewrite Hn. reflexivity.
Qed.

Lemma checkPrizeEligibility_missing_count_witness :
  "dee@example.org" <> "" /\
  fst (ApiService.checkPrizeEligibility (Some "dee@example.org") (serving newcomer_board)
                                        initial_state)
    = Ok (mkEligibility false
            "You need 1000 more valid contributions to qualify for a t-shirt"
            (VNum 0) false false).
Proof.
  split; [discriminate|].
  apply (checkPrizeEligibility_missing_count "dee@example.org" (serving newcomer_board)
           initial_state (mkResponse 200 "" "" (inr newcomer_board))
           [VObj [("email", VStr "ana@example.org"); ("contributionCount", VNum 12000)]]
           (VObj [("email", VStr "dee@example.org"); ("contributionCount", VNull)])
           []);
    try reflexivity; try discriminate.
  constructor; [|constructor]. repeat split; discriminate.
Defined.

Lemma append_empty_r (a : string) : a ++ "" = a.
Proof. induction a as [|c a IH]; cbn; [reflexivity | now rewrite IH]. Qed.

Lemma append_not_empty (a : string) (c : ascii) (b : string) : a ++ String c b <> "".
Proof. destruct a; discriminate. Qed.

Lemma searchParams_toString_empty ps : searchParams_toString ps = "" -> ps = [].
Proof.
  destruct ps as [|[k v] [|q ps]]; [reflexivity | |]; cbn [searchParams_toString];
    intros H; exfalso; exact (append_not_empty _ _ _ H).
Qed.

Lemma phrase_query_empty o :
  (ApiService.phrase_query o =? "")%string = no_filters o.
Proof.
  unfold ApiService.phrase_query, no_filters.
  destruct (truthy_str (category o)), (difficultyLevel o), (minWords o), (maxWords o);
    cbn [negb andb app]; try reflexivity;
    apply String.eqb_neq; intros H; apply searchParams_toString_empty in H; discriminate H.
Qed.

(** X14.  Each phrase operation sends one plain GET.  Its URL ends in a
    query string exactly when an option is set -- a category that is not
    empty, or a number, 0 included -- and is the bare endpoint
    otherwise. *)
Theorem phrase_requests :
  forall (options : option PhraseOptions) (w : world) (s : state),
    requests (since s (snd (ApiService.getAIGeneratedPhrase options w s)))
      = [phrase_request (apiUrl s) "/ai/random-phrase" options] /\
    requests (since s (snd (ApiService.getGeminiPhrase options w s)))
      = [phrase_request (apiUrl s) "/ai/gemini-phrase" options].
Proof.
  intros options w [fb ld ls tr]. unfold phrase_request. cbv zeta.
  split;
    [unfold ApiService.getAIGeneratedPhrase | unfold ApiService.getGeminiPhrase];
    cbv zeta; rewrite phrase_query_empty;
    destruct (no_filters (dflt empty_PhraseOptions options)); cbn [negb];
    exec_monad; repeat exec_step; read_since;
    rewrite ?append_assoc, ?append_empty_r; reflexivity.
Qed.

(* ================================================================== *)
(** * Further concrete runs *)
(* ================================================================== *)

(** A 502 from the server becomes the error "API error: 502". *)
Lemma fetchWithCorsHandling_outcome_witness :
  ok (mkResponse 502 "Bad Gateway" "upstream down" (inl "Unexpected token")) = false /\
  fst (fetchWithCorsHandling "https://localhost:7152/api/contributions/5" no_options
                             (http_failure 502) initial_state)
    = Throw (Error "API error: 502").
Proof.
  split; [reflexivity|].
  destruct (fetchWithCorsHandling_outcome
              "https://localhost:7152/api/contributions/5" no_options
              (http_failure 502) initial_state) as (_ & H & _).
  destruct (H (mkResponse 502 "Bad Gateway" "upstream down" (inl "Unexpected token"))
              eq_refl) as (H1 & _).
  exact (proj1 (H1 eq_refl)).
Defined.

(** Logging out keeps the stored URL override. *)
Lemma logoutAdmin_ends_session_witness :
  "palefo-api-url" <> "adminAuthenticated" /\
  storage_get "palefo-api-url"
    (localStorage
       (snd (ApiService.logoutAdmin
               unreachable
               (set_localStorage [("adminAuthenticated", "true");
                                  ("palefo-api-url", "http://localhost:5297/api")]
                                 initial_state))))
    = Some "http://localhost:5297/api".
Proof.
  split; [discriminate|].
  destruct (logoutAdmin_ends_session
              unreachable
              (set_localStorage [("adminAuthenticated", "true");
                                 ("palefo-api-url", "http://localhost:5297/api")]
                                initial_state)) as (_ & _ & H & _).
  rewrite (H "palefo-api-url") by discriminate.
  reflexivity.
Defined.
